(** * A shallow embedding of [bot.py], the video download bot

    The development follows the module top-down: Python values and the
    string primitives the module relies on, the pure helpers
    ([_sanitize_filename], [_is_valid_url], [_has_video_extension]), the
    world the effectful code runs in (file system, HTTP client, extractor,
    chat platform), the two download strategies, the resolver and the
    command handler.  Theorems come last. *)

From Stdlib Require Import ZArith NArith List Lia String Ascii DecimalString.
From Stdlib Require Import Init.Byte.
From stdpp Require Import base option list gmap.

Local Open Scope Z_scope.

(** ** Python values *)

(** A Python [str] is a sequence of Unicode code points. *)
Definition str := list N.

(** A string literal of the source, as code points. *)
Definition lit (s : string) : str := map N_of_ascii (list_ascii_of_string s).

(** [bytes] objects, as they come out of [iter_content]. *)
Definition bytes := list byte.

(** [len(x)], an unbounded Python integer. *)
Definition len {A} (l : list A) : Z := Z.of_nat (length l).

(** [c in s] for a one-character [c]. *)
Definition char_in (c : N) (s : str) : bool := existsb (N.eqb c) s.

(** ** String primitives *)

Module Py.

(** [s.startswith(p)] *)
Fixpoint startswith (s p : str) : bool :=
  match p, s with
  | [], _ => true
  | _ :: _, [] => false
  | a :: p', b :: s' => (a =? b)%N && startswith s' p'
  end.

(** [s.endswith(p)] *)
Definition endswith (s p : str) : bool := startswith (rev s) (rev p).

(** [p in s] for a substring [p]. *)
Fixpoint contains (s p : str) : bool :=
  startswith s p ||
  match s with
  | [] => false
  | _ :: s' => contains s' p
  end.

(** [s.find(c, start)] for a one-character [c]: the index of the first
    occurrence at or after [start], or [-1]. *)
Fixpoint find_from (c : N) (s : str) (start pos : nat) : Z :=
  match s with
  | [] => -1
  | x :: s' =>
      if (start <=? pos)%nat && (x =? c)%N then Z.of_nat pos
      else find_from c s' start (S pos)
  end.

Definition find (c : N) (s : str) (start : nat) : Z := find_from c s start 0.

(** [s.rfind(c)]: the index of the last occurrence, or [-1]. *)
Fixpoint rfind_from (c : N) (s : str) (pos : nat) (last : Z) : Z :=
  match s with
  | [] => last
  | x :: s' => rfind_from c s' (S pos) (if (x =? c)%N then Z.of_nat pos else last)
  end.

Definition rfind (c : N) (s : str) : Z := rfind_from c s 0 (-1).

(** [s[:i]] and [s[i:]] for a non-negative [i]. *)
Definition slice_to (s : str) (i : Z) : str := take (Z.to_nat i) s.
Definition slice_from (s : str) (i : Z) : str := drop (Z.to_nat i) s.

(** [s.lstrip(chars)], [s.rstrip(chars)], [s.strip(chars)] *)
Fixpoint lstrip (chars : str) (s : str) : str :=
  match s with
  | [] => []
  | c :: s' => if char_in c chars then lstrip chars s' else s
  end.

Definition rstrip (chars : str) (s : str) : str := rev (lstrip chars (rev s)).

Definition strip (chars : str) (s : str) : str := rstrip chars (lstrip chars s).

(** [s.replace(c, '')] for a one-character [c]: every [c] is deleted. *)
Definition remove_char (c : N) (s : str) : str :=
  filter (fun x => x ≠ c) (s : list N).

(** [s.isascii()] *)
Definition isascii (s : str) : bool := forallb (fun c => (c <? 128)%N) s.

Definition is_upper (c : N) : bool := (65 <=? c)%N && (c <=? 90)%N.
Definition is_lower (c : N) : bool := (97 <=? c)%N && (c <=? 122)%N.

(** Lower-casing of one ASCII character. *)
Definition lower_ascii_char (c : N) : N := if is_upper c then (c + 32)%N else c.

(** An item of a regular-expression character class: one character or a
    range of code points. *)
Inductive class_item :=
| Chr (c : N)
| Rng (lo hi : N).

Definition item_matches (c : N) (i : class_item) : bool :=
  match i with
  | Chr x => (c =? x)%N
  | Rng lo hi => (lo <=? c)%N && (c <=? hi)%N
  end.

Definition class_matches (cls : list class_item) (c : N) : bool :=
  existsb (item_matches c) cls.

(** [re.sub(r'[...]', repl, s)]: a character class matches exactly one
    character, so every matching character is replaced in turn. *)
Fixpoint re_sub_class (cls : list class_item) (repl : str) (s : str) : str :=
  match s with
  | [] => []
  | c :: s' =>
      (if class_matches cls c then repl else [c]) ++ re_sub_class cls repl s'
  end.

End Py.

(** ** [_sanitize_filename] *)

(** The character class of the pattern: the nine punctuation characters
    (less-than, greater-than, colon, double quote, slash, backslash, bar,
    question mark, star) and the range of code points 0x00 to 0x1f. *)
Definition unsafe_class : list Py.class_item :=
  [Py.Chr 60; Py.Chr 62; Py.Chr 58; Py.Chr 34; Py.Chr 47; Py.Chr 92;
   Py.Chr 124; Py.Chr 63; Py.Chr 42; Py.Rng 0 31]%N.

Definition _sanitize_filename (name : str) : str :=
  let name := Py.re_sub_class unsafe_class (lit "_") name in
  let name := Py.strip (lit ". ") name in
  let name := if 100 <? len name then Py.slice_to name 100 else name in
  match name with
  | [] => lit "video"
  | _ => name
  end.

(** The sanitizer as the specification words it: the forbidden set written
    out, replacement character by character, stripping as dropping from both
    ends, an unconditional cut at 100, and the fallback on emptiness. *)
Definition forbidden (c : N) : Prop :=
  c ∈ lit "<>:" ∨ c = 34%N ∨ c ∈ lit "/\|?*" ∨ (c <= 31)%N.

#[local] Instance forbidden_dec c : Decision (forbidden c) :=
  or_dec _ (or_dec _ (or_dec _ _)).

Definition dot_or_space (c : N) : Prop := c = 46%N ∨ c = 32%N.

#[local] Instance dot_or_space_dec c : Decision (dot_or_space c) :=
  or_dec _ _.

Fixpoint drop_leading (l : str) : str :=
  match l with
  | [] => []
  | c :: l' => if decide (dot_or_space c) then drop_leading l' else l
  end.

Definition sanitize_spec (name : str) : str :=
  let replaced := (fun c => if decide (forbidden c) then 95%N else c) <$> name in
  let stripped := reverse (drop_leading (reverse (drop_leading replaced))) in
  let cut := take 100 stripped in
  if decide (cut = []) then lit "video" else cut.

(** ** Exceptions and results *)

(** The exception classes that occur.  All of them derive from
    [Exception], so an [except Exception] clause catches each;
    interpreter-level exceptions outside [Exception] are not modelled. *)
Inductive exn :=
| ValueError
| OSError
| RequestException
| HTTPError
| DownloadError
| DiscordException.

Inductive res (A : Type) :=
| Ret (a : A)
| Raise (e : exn).
Arguments Ret {A} a.
Arguments Raise {A} e.

(** ** The world the module runs in *)

(** A value stored in an options dictionary. *)
Inductive pyval :=
| VStr (s : str)
| VInt (z : Z)
| VBool (b : bool).

(** A file-system entry.  The file system is a finite map from path strings,
    compared as given, to entries; it has no links, no permissions and no
    write faults. *)
Inductive node :=
| File (content : bytes)
| Dir.

(** A [requests.Response]: the status, the headers (a case-insensitive
    dictionary, keyed here by the lower-cased field name), the chunks that
    [iter_content] yields, and whether the stream raises once they are
    exhausted. *)
Record Response := {
  status_code : Z;
  headers : gmap str str;
  chunks : list bytes;
  broken : bool
}.

(** What the handler says to the chat platform. *)
Inductive message :=
| InvalidUrl                       (* Please provide a valid HTTP or HTTPS URL. *)
| CouldNotDownload                 (* Could not download a video from that URL. ... *)
| TooLarge (file_size : Z)         (* The downloaded video is too large to upload ... *)
| EmptyFile                        (* The downloaded file is empty. *)
| HereIsYourVideo (url filename : str) (content : bytes).

Inductive discord_call :=
| SendMessage (m : message) (ephemeral : bool)
| Defer (thinking : bool)
| FollowupSend (m : message).

(** The records handed to [logger.warning]. *)
Inductive log_record :=
| YtdlpFailed (url : str) (exc : exn)          (* yt-dlp failed for %s: %s *)
| DirectExceeded (url : str)                   (* Direct download exceeded size limit for %s *)
| DirectFailed (url : str) (exc : exn).        (* Direct download failed for %s: %s *)

Inductive function_name :=
| Fn_download_with_ytdlp
| Fn_download_direct
| Fn_download_video.

(** What a run does that can be observed from outside, in order.  [Call]
    records the entry into one of the module's download functions, the way a
    mock records its calls. *)
Inductive event :=
| Call (f : function_name) (url dest_dir : str)
| Head (url : str) (allow_redirects : bool) (timeout : Z)
| Get (url : str) (stream : bool) (timeout : Z)
| YoutubeDL (ydl_opts : gmap str pyval)
| ExtractInfo (url : str) (download : bool)
| Makedirs (name : str)
| Mkdtemp (name : str)
| OpenWb (name : str)
| Write (name : str) (data : bytes)
| Remove (name : str)
| Rmtree (name : str)
| Warning (r : log_record)
| Discord (c : discord_call).

(** Everything the module takes from its surroundings: tables of the
    standard library that [urlparse] and [str.lower] consult, the module
    globals, and the outcome of every call that leaves the process. *)
Class Env := {
  (** [ipaddress] and the IPvFuture pattern on a bracketed host *)
  bracketed_host_ok : str -> bool;
  (** the NFKC check of [_checknetloc] on a netloc that is not ASCII *)
  nfkc_netloc_ok : str -> bool;
  (** [str.lower] on a string that is not ASCII *)
  unicode_lower : str -> str;
  (** Module globals, read when a function runs.  At import
      [MAX_FILE_SIZE_BYTES] is bound to [MAX_FILE_SIZE_MB * 1024 * 1024]. *)
  MAX_FILE_SIZE_MB : Z;
  MAX_FILE_SIZE_BYTES : Z;
  DOWNLOAD_DIR : str;
  (** [requests.head] and [requests.get]: a response, or an exception *)
  requests_head : str -> res Response;
  requests_get : str -> res Response;
  (** [uuid.uuid4().hex] *)
  uuid4_hex : str;
  (** [yt_dlp.YoutubeDL(opts)], [extract_info] (which may write files) and
      [prepare_filename] *)
  YoutubeDL_init : gmap str pyval -> res unit;
  extract_info : gmap str pyval -> str -> gmap str node ->
                 gmap str node * res (option (gmap str pyval));
  prepare_filename : gmap str pyval -> gmap str pyval -> res str;
  (** the directory name [tempfile.mkdtemp(dir=...)] settles on *)
  mkdtemp_name : option str -> str;
  (** the size [os.path.getsize] reports for a directory *)
  dir_st_size : str -> Z;
  (** whether a call to the chat platform goes through *)
  discord_ok : discord_call -> bool
}.

(** The binding of line 22. *)
Definition bytes_of_mb (mb : Z) : Z := mb * 1024 * 1024.

(** ** [urllib.parse] *)

(** A model of [urlparse] as CPython 3.12 implements it, for [str]
    arguments and the default [scheme=''] and [allow_fragments=True]. *)
Section Urllib.

Context `{env : Env}.

(** [s.lower()] *)
Definition str_lower (s : str) : str :=
  if Py.isascii s then map Py.lower_ascii_char s else unicode_lower s.

Record ParseResult := {
  scheme : str;
  netloc : str;
  path : str;
  params : str;
  query : str;
  fragment : str
}.

Definition _WHATWG_C0_CONTROL_OR_SPACE : str := map N.of_nat (seq 0 33).

Definition _UNSAFE_URL_BYTES_TO_REMOVE : str := [9; 13; 10]%N.

Definition scheme_chars : str :=
  lit "abcdefghijklmnopqrstuvwxyzABCDEFGHIJKLMNOPQRSTUVWXYZ0123456789+-.".

Definition uses_params : list str :=
  [lit ""; lit "ftp"; lit "hdl"; lit "prospero"; lit "http"; lit "imap";
   lit "https"; lit "shttp"; lit "rtsp"; lit "rtspu"; lit "sip";
   lit "sips"; lit "mms"; lit "sftp"; lit "tel"].

(** [_splitnetloc(url, start)]: the netloc runs from [start] to the
    earliest of the delimiters [/], [?] and [#]. *)
Definition _splitnetloc (url : str) (start : nat) : str * str :=
  let delim :=
    fold_left
      (fun delim c =>
         let wdelim := Py.find c url start in
         if 0 <=? wdelim then Z.min delim wdelim else delim)
      (lit "/?#") (len url) in
  (drop start (Py.slice_to url delim), Py.slice_from url delim).

(** [netloc.partition('[')[2].partition(']')[0]] *)
Definition bracketed_host (netloc : str) : str :=
  let after := Py.slice_from netloc (Py.find 91 netloc 0 + 1) in
  let close := Py.find 93 after 0 in
  if 0 <=? close then Py.slice_to after close else after.

(** [url.split(c, 1)] when [c] occurs in [url]. *)
Definition split_once (c : N) (url : str) : option (str * str) :=
  let i := Py.find c url 0 in
  if 0 <=? i then Some (Py.slice_to url i, Py.slice_from url (i + 1)) else None.

(** [_checknetloc(netloc)] *)
Definition _checknetloc (netloc : str) : res unit :=
  if match netloc with [] => true | _ => false end || Py.isascii netloc
  then Ret tt
  else if nfkc_netloc_ok netloc then Ret tt else Raise ValueError.

(** The scheme step of [urlsplit]: a prefix up to the first colon that
    starts with an ASCII letter and consists of scheme characters is cut
    off and lower-cased. *)
Definition split_scheme (url : str) : str * str :=
  let i := Py.find 58 url 0 in
  match url with
  | c0 :: _ =>
      if (0 <? i) && (c0 <? 128)%N && (Py.is_upper c0 || Py.is_lower c0)
         && forallb (fun c => char_in c scheme_chars) (Py.slice_to url i)
      then (str_lower (Py.slice_to url i), Py.slice_from url (i + 1))
      else ([], url)
  | [] => ([], url)
  end.

(** The netloc step of [urlsplit]; the third component tells whether the
    brackets of the netloc make it raise [ValueError]. *)
Definition split_netloc (url : str) : str * str * bool :=
  if Py.startswith url (lit "//") then
    let '(netloc, url) := _splitnetloc url 2 in
    let has_open := char_in 91 netloc in
    let has_close := char_in 93 netloc in
    if (has_open && negb has_close) || (has_close && negb has_open)
    then (netloc, url, true)
    else if has_open && has_close
         then (netloc, url, negb (bracketed_host_ok (bracketed_host netloc)))
         else (netloc, url, false)
  else ([], url, false).

(** The loop over [_UNSAFE_URL_BYTES_TO_REMOVE] that deletes each of these
    characters from the URL. *)
Definition remove_unsafe_bytes (url : str) : str :=
  fold_left (fun u b => Py.remove_char b u) _UNSAFE_URL_BYTES_TO_REMOVE url.

(** [urlsplit(url)], returning scheme, netloc, path, query, fragment. *)
Definition urlsplit (url : str) : res (str * str * str * str * str) :=
  let url := Py.lstrip _WHATWG_C0_CONTROL_OR_SPACE url in
  let url := remove_unsafe_bytes url in
  let '(scheme, url) := split_scheme url in
  let '(netloc, url, bad) := split_netloc url in
  if bad then Raise ValueError else
  let '(url, fragment) :=
    match split_once 35 url with
    | Some (u, f) => (u, f)
    | None => (url, [])
    end in
  let '(url, query) :=
    match split_once 63 url with
    | Some (u, q) => (u, q)
    | None => (url, [])
    end in
  match _checknetloc netloc with
  | Raise e => Raise e
  | Ret _ => Ret (scheme, netloc, url, query, fragment)
  end.

(** [_splitparams(url)], called when [';' in url]. *)
Definition _splitparams (url : str) : str * str :=
  if char_in 47 url then
    let i := Py.find 59 url (Z.to_nat (Py.rfind 47 url)) in
    if i <? 0 then (url, [])
    else (Py.slice_to url i, Py.slice_from url (i + 1))
  else
    let i := Py.find 59 url 0 in
    (Py.slice_to url i, Py.slice_from url (i + 1)).

Definition urlparse (url : str) : res ParseResult :=
  match urlsplit url with
  | Raise e => Raise e
  | Ret (scheme, netloc, url, query, fragment) =>
      let '(url, params) :=
        if bool_decide (scheme ∈ uses_params) && char_in 59 url
        then _splitparams url
        else (url, []) in
      Ret {| scheme := scheme; netloc := netloc; path := url;
             params := params; query := query; fragment := fragment |}
  end.

(** ** URL classifier *)

Definition VIDEO_EXTENSIONS : list str :=
  [lit ".mp4"; lit ".webm"; lit ".mkv"; lit ".avi"; lit ".mov";
   lit ".flv"; lit ".wmv"; lit ".m4v"; lit ".mpg"; lit ".mpeg"].

Definition _is_valid_url (url : str) : bool :=
  match urlparse url with
  | Ret result =>
      bool_decide (scheme result ∈ [lit "http"; lit "https"])
      && match netloc result with [] => false | _ => true end
  | Raise _ => false
  end.

Definition _has_video_extension (url : str) : bool :=
  match urlparse url with
  | Ret result =>
      let path := str_lower (path result) in
      existsb (fun ext => Py.endswith path ext) VIDEO_EXTENSIONS
  | Raise _ => false
  end.

End Urllib.

(** ** [os.path] on POSIX *)

Module os_path.

(** [os.path.join(a, b)] *)
Definition join (a b : str) : str :=
  if Py.startswith b (lit "/") then b
  else if match a with [] => true | _ => false end || Py.endswith a (lit "/")
       then a ++ b
       else a ++ lit "/" ++ b.

(** The loop of [genericpath._splitext] that skips leading dots of the
    file name: is some character in positions [from .. dot-1] not a dot? *)
Fixpoint has_non_dot (p : str) (from count : nat) : bool :=
  match count with
  | O => false
  | S count' =>
      match p !! from with
      | Some c => if (c =? 46)%N then has_non_dot p (S from) count' else true
      | None => true
      end
  end.

(** [os.path.splitext(p)] *)
Definition splitext (p : str) : str * str :=
  let sepIndex := Py.rfind 47 p in
  let dotIndex := Py.rfind 46 p in
  if sepIndex <? dotIndex then
    let filenameIndex := sepIndex + 1 in
    if has_non_dot p (Z.to_nat filenameIndex) (Z.to_nat (dotIndex - filenameIndex))
    then (Py.slice_to p dotIndex, Py.slice_from p dotIndex)
    else (p, [])
  else (p, []).

(** [os.path.basename(p)] *)
Definition basename (p : str) : str := Py.slice_from p (Py.rfind 47 p + 1).

(** [os.path.dirname(p)] *)
Definition dirname (p : str) : str :=
  let head := Py.slice_to p (Py.rfind 47 p + 1) in
  if forallb (N.eqb 47) head then head else Py.rstrip (lit "/") head.

(** [os.path.exists(p)]; the empty path never exists. *)
Definition exists_ (fs : gmap str node) (p : str) : bool :=
  match p with
  | [] => false
  | _ => bool_decide (is_Some (fs !! p))
  end.

(** [os.path.isdir(p)] *)
Definition isdir (fs : gmap str node) (p : str) : bool :=
  match fs !! p with
  | Some Dir => true
  | _ => false
  end.

End os_path.

(** [p] is [d] itself or lies below it. *)
Definition path_under (d p : str) : Prop :=
  p = d ∨ Py.startswith p (os_path.join d []) = true.

#[local] Instance path_under_dec d p : Decision (path_under d p) :=
  or_dec _ _.

(** ** Effects *)

(** A computation reads and updates the file system, appends to the record
    of events, and returns or raises. *)
Definition M (A : Type) : Type := gmap str node -> res A * gmap str node * list event.

Definition ret {A} (a : A) : M A := fun fs => (Ret a, fs, []).

Definition raise {A} (e : exn) : M A := fun fs => (Raise e, fs, []).

Definition bind {A B} (m : M A) (k : A -> M B) : M B :=
  fun fs =>
    match m fs with
    | (Ret a, fs1, ev1) =>
        let '(r, fs2, ev2) := k a fs1 in (r, fs2, ev1 ++ ev2)
    | (Raise e, fs1, ev1) => (Raise e, fs1, ev1)
    end.

Declare Scope M_scope.
Delimit Scope M_scope with M.
Notation "x <- m ;; k" := (bind m (fun x => k))
  (at level 100, m at next level, right associativity) : M_scope.
Notation "m ;; k" := (bind m (fun _ => k))
  (at level 100, right associativity) : M_scope.
Local Open Scope M_scope.

(** Record an event. *)
Definition emit (e : event) : M unit := fun fs => (Ret tt, fs, [e]).

(** Turn the outcome of a call into a computation. *)
Definition lift {A} (r : res A) : M A := fun fs => (r, fs, []).

(** [try: body  except Exception as exc: handler(exc)] *)
Definition try_except {A} (body : M A) (handler : exn -> M A) : M A :=
  fun fs =>
    match body fs with
    | (Ret a, fs1, ev1) => (Ret a, fs1, ev1)
    | (Raise e, fs1, ev1) =>
        let '(r, fs2, ev2) := handler e fs1 in (r, fs2, ev1 ++ ev2)
    end.

(** [try: body  finally: cleanup]; an exception of [cleanup] replaces the
    outcome of [body]. *)
Definition try_finally {A} (body : M A) (cleanup : M unit) : M A :=
  fun fs =>
    let '(r, fs1, ev1) := body fs in
    match cleanup fs1 with
    | (Ret _, fs2, ev2) => (r, fs2, ev1 ++ ev2)
    | (Raise e, fs2, ev2) => (Raise e, fs2, ev1 ++ ev2)
    end.

(** ** File-system calls *)

(** [os.makedirs(name, exist_ok=True)]: afterwards [name] is a directory;
    an existing file of that name makes it raise.  Only the leaf is
    recorded, intermediate directories are not tracked. *)
Definition os_makedirs (name : str) : M unit :=
  fun fs =>
    match fs !! name with
    | Some (File _) => (Raise OSError, fs, [Makedirs name])
    | Some Dir => (Ret tt, fs, [Makedirs name])
    | None => (Ret tt, <[name := Dir]> fs, [Makedirs name])
    end.

(** [open(name, "wb")]: creates or truncates the file; raises when [name]
    is a directory or its parent is not one. *)
Definition open_wb (name : str) : M unit :=
  fun fs =>
    match fs !! name with
    | Some Dir => (Raise OSError, fs, [OpenWb name])
    | _ =>
        if os_path.isdir fs (os_path.dirname name)
        then (Ret tt, <[name := File []]> fs, [OpenWb name])
        else (Raise OSError, fs, [OpenWb name])
    end.

(** [f.write(chunk)] on the file opened at [name] *)
Definition f_write (name : str) (chunk : bytes) : M unit :=
  fun fs =>
    match fs !! name with
    | Some (File content) =>
        (Ret tt, <[name := File (content ++ chunk)]> fs, [Write name chunk])
    | _ => (Raise OSError, fs, [Write name chunk])
    end.

(** [os.remove(name)] *)
Definition os_remove (name : str) : M unit :=
  fun fs =>
    match fs !! name with
    | Some (File _) => (Ret tt, delete name fs, [Remove name])
    | _ => (Raise OSError, fs, [Remove name])
    end.

(** [os.path.getsize(name)] *)
Definition os_path_getsize `{env : Env} (name : str) : M Z :=
  fun fs =>
    match fs !! name with
    | Some (File content) => (Ret (len content), fs, [])
    | Some Dir => (Ret (dir_st_size name), fs, [])
    | None => (Raise OSError, fs, [])
    end.

(** [shutil.rmtree(name, ignore_errors=True)]: removes [name] and all below
    it, and never raises. *)
Definition shutil_rmtree (name : str) : M unit :=
  fun fs =>
    (Ret tt, filter (fun kv => ¬ path_under name kv.1) fs, [Rmtree name]).

(** Reading the file system without changing it. *)
Definition with_fs {A} (f : gmap str node -> A) : M A :=
  fun fs => (Ret (f fs), fs, []).

(** ** The module *)

Section Bot.

Context `{env : Env}.

(** [headers.get(name, default)] on the case-insensitive dictionary *)
Definition headers_get (h : gmap str str) (name default : str) : str :=
  match h !! str_lower name with
  | Some v => v
  | None => default
  end.

(** The declared content type: the [Content-Type] header, or the empty
    string when the response has none. *)
Definition content_type_of (resp : Response) : str :=
  headers_get (headers resp) (lit "Content-Type") [].

(** [resp.raise_for_status()] *)
Definition raise_for_status (resp : Response) : M unit :=
  if (400 <=? status_code resp) && (status_code resp <? 600)
  then raise HTTPError
  else ret tt.

Definition _is_video_content_type (url : str) : M bool :=
  try_except
    (emit (Head url true 10) ;;
     resp <- lift (requests_head url) ;;
     let content_type := content_type_of resp in
     ret (Py.startswith content_type (lit "video/")))
    (fun _ => ret false).

(** [str(n)] for an integer *)
Definition str_of_int (n : Z) : str := lit (NilZero.string_of_int (Z.to_int n)).

(** The options dictionary of [download_with_ytdlp]. *)
Definition ydl_opts (dest_dir : str) : gmap str pyval :=
  let output_template := os_path.join dest_dir (lit "%(title).100s.%(ext)s") in
  let limit := str_of_int MAX_FILE_SIZE_BYTES in
  list_to_map
    [(lit "outtmpl", VStr output_template);
     (lit "format",
      VStr (lit "bestvideo[filesize<" ++ limit ++ lit "]+bestaudio[filesize<"
            ++ limit ++ lit "]/best[filesize<" ++ limit
            ++ lit "]/bestvideo+bestaudio/best"));
     (lit "merge_output_format", VStr (lit "mp4"));
     (lit "noplaylist", VBool true);
     (lit "quiet", VBool true);
     (lit "no_warnings", VBool true);
     (lit "socket_timeout", VInt 30);
     (lit "retries", VInt 3)].

(** [ydl.extract_info(url, download=True)] *)
Definition ydl_extract_info (opts : gmap str pyval) (url : str)
  : M (option (gmap str pyval)) :=
  fun fs => let '(fs', r) := extract_info opts url fs in (r, fs', [ExtractInfo url true]).

Definition download_with_ytdlp (url dest_dir : str) : M (option str) :=
  emit (Call Fn_download_with_ytdlp url dest_dir) ;;
  let opts := ydl_opts dest_dir in
  try_except
    (emit (YoutubeDL opts) ;;
     lift (YoutubeDL_init opts) ;;
     info <- ydl_extract_info opts url ;;
     match info with
     | None => ret None
     | Some info =>
         filepath <- lift (prepare_filename opts info) ;;
         found <- with_fs (fun fs => os_path.exists_ fs filepath) ;;
         let filepath :=
           if negb found then (os_path.splitext filepath).1 ++ lit ".mp4"
           else filepath in
         found <- with_fs (fun fs => os_path.exists_ fs filepath) ;;
         if found then ret (Some filepath) else ret None
     end)
    (fun exc => emit (Warning (YtdlpFailed url exc)) ;; ret None).

(** The loop over [resp.iter_content(chunk_size=8192)] inside the [with]
    block, and the [return filepath] after it. *)
Fixpoint stream_to_file (url filepath : str) (chunks : list bytes) (broken : bool)
    (size : Z) : M (option str) :=
  match chunks with
  | [] => if broken then raise RequestException else ret (Some filepath)
  | chunk :: rest =>
      let size := size + len chunk in
      if MAX_FILE_SIZE_BYTES <? size then
        os_remove filepath ;;
        emit (Warning (DirectExceeded url)) ;;
        ret None
      else
        f_write filepath chunk ;;
        stream_to_file url filepath rest broken size
  end.

(** Line 109: [_has_video_extension(url) or _is_video_content_type(url)] *)
Definition looks_like_video (url : str) : M bool :=
  if _has_video_extension url then ret true else _is_video_content_type url.

(** Lines 116 to 123: the extension [download_direct] gives the file. *)
Definition direct_ext (url content_type : str) : res str :=
  if _has_video_extension url then
    match urlparse url with
    | Ret result => Ret (os_path.splitext (path result)).2
    | Raise e => Raise e
    end
  else if Py.contains content_type (lit "webm") then Ret (lit ".webm")
  else if Py.contains content_type (lit "matroska")
          || Py.contains content_type (lit "x-matroska") then Ret (lit ".mkv")
  else Ret (lit ".mp4").

(** Lines 116 to 126: the path [download_direct] writes to. *)
Definition direct_filepath (url dest_dir : str) (resp : Response) : res str :=
  let content_type := content_type_of resp in
  match direct_ext url content_type with
  | Ret ext =>
      let filename := _sanitize_filename (lit "video_" ++ take 8 uuid4_hex) ++ ext in
      Ret (os_path.join dest_dir filename)
  | Raise e => Raise e
  end.

Definition download_direct (url dest_dir : str) : M (option str) :=
  emit (Call Fn_download_direct url dest_dir) ;;
  video <- looks_like_video url ;;
  if negb video then ret None else
  try_except
    (emit (Get url true 30) ;;
     resp <- lift (requests_get url) ;;
     raise_for_status resp ;;
     filepath <- lift (direct_filepath url dest_dir resp) ;;
     open_wb filepath ;;
     stream_to_file url filepath (chunks resp) (broken resp) 0)
    (fun exc => emit (Warning (DirectFailed url exc)) ;; ret None).

Definition download_video (url dest_dir : str) : M (option str) :=
  emit (Call Fn_download_video url dest_dir) ;;
  os_makedirs dest_dir ;;
  path <- download_with_ytdlp url dest_dir ;;
  match path with
  | Some (_ :: _) => ret path
  | _ => download_direct url dest_dir
  end.

(** ** The command handler *)

(** [tempfile.mkdtemp(dir=dir)] *)
Definition tempfile_mkdtemp (dir : option str) : M str :=
  fun fs =>
    let name := mkdtemp_name dir in
    match fs !! name with
    | Some _ => (Raise OSError, fs, [])
    | None => (Ret name, <[name := Dir]> fs, [Mkdtemp name])
    end.

(** A call to the chat platform. *)
Definition discord (c : discord_call) : M unit :=
  fun fs =>
    if discord_ok c then (Ret tt, fs, [Discord c])
    else (Raise DiscordException, fs, [Discord c]).

(** [discord.File(filepath, filename=filename)]: opens the file to read. *)
Definition discord_File (filepath : str) : M bytes :=
  fun fs =>
    match fs !! filepath with
    | Some (File content) => (Ret content, fs, [])
    | _ => (Raise OSError, fs, [])
    end.

(** The body of the [try] block of the handler, over the resolver that the
    name [download_video] is bound to when the handler runs. *)
Definition respond (resolver : str -> str -> M (option str))
    (url tmp_dir : str) : M unit :=
  filepath <- resolver url tmp_dir ;;
  match filepath with
  | None => discord (FollowupSend CouldNotDownload)
  | Some filepath =>
      file_size <- os_path_getsize filepath ;;
      if MAX_FILE_SIZE_BYTES <? file_size then
        discord (FollowupSend (TooLarge file_size))
      else if file_size =? 0 then
        discord (FollowupSend EmptyFile)
      else
        let filename := os_path.basename filepath in
        content <- discord_File filepath ;;
        discord (FollowupSend (HereIsYourVideo url filename content))
  end.

(** The directory argument of [mkdtemp]: [DOWNLOAD_DIR] when it is a
    directory, the default otherwise. *)
Definition workspace_parent (fs : gmap str node) : option str :=
  if os_path.isdir fs DOWNLOAD_DIR then Some DOWNLOAD_DIR else None.

(** The handler. *)
Definition download_command_with (resolver : str -> str -> M (option str))
    (url : str) : M unit :=
  if negb (_is_valid_url url) then
    discord (SendMessage InvalidUrl true)
  else
    discord (Defer true) ;;
    parent <- with_fs workspace_parent ;;
    tmp_dir <- tempfile_mkdtemp parent ;;
    try_finally (respond resolver url tmp_dir) (shutil_rmtree tmp_dir).

Definition download_command (url : str) : M unit :=
  download_command_with download_video url.

End Bot.

(** ** Sample surroundings *)

(** A response with a status, a declared content type and a body. *)
Definition response (status : Z) (content_type : str) (body : list bytes) : Response :=
  {| status_code := status;
     headers := {[ lit "content-type" := content_type ]};
     chunks := body;
     broken := false |}.

(** A response whose stream raises after its chunks. *)
Definition broken_response (status : Z) (content_type : str) (body : list bytes)
    : Response :=
  {| status_code := status;
     headers := {[ lit "content-type" := content_type ]};
     chunks := body;
     broken := true |}.

(** Surroundings with a given ceiling and given answers to HEAD and GET, in
    which the extractor always fails. *)
Definition sample_env (ceiling : Z) (head get : res Response) : Env :=
  {| bracketed_host_ok := fun _ => true;
     nfkc_netloc_ok := fun _ => true;
     unicode_lower := fun s => s;
     MAX_FILE_SIZE_MB := 25;
     MAX_FILE_SIZE_BYTES := ceiling;
     DOWNLOAD_DIR := lit "downloads";
     requests_head := fun _ => head;
     requests_get := fun _ => get;
     uuid4_hex := lit "9f1c2e7ab04d4c35a6e2f0b1c3d4e5f6";
     YoutubeDL_init := fun _ => Ret tt;
     extract_info := fun _ _ fs => (fs, Raise DownloadError);
     prepare_filename := fun _ _ => Raise DownloadError;
     mkdtemp_name := fun dir =>
       match dir with
       | Some d => os_path.join d (lit "tmpk3v9x_2a")
       | None => lit "/tmp/tmpk3v9x_2a"
       end;
     dir_st_size := fun _ => 4096;
     discord_ok := fun _ => true |}.

(** Surroundings in which the extractor succeeds: it writes [content] to
    [My Video.mp4] in the directory of the output template and reports that
    path. *)
Definition extracted_path (opts : gmap str pyval) : res str :=
  match opts !! lit "outtmpl" with
  | Some (VStr template) =>
      Ret (os_path.join (os_path.dirname template) (lit "My Video.mp4"))
  | _ => Raise DownloadError
  end.

Definition sample_env_extracting (ceiling : Z) (content : bytes) : Env :=
  {| bracketed_host_ok := fun _ => true;
     nfkc_netloc_ok := fun _ => true;
     unicode_lower := fun s => s;
     MAX_FILE_SIZE_MB := 25;
     MAX_FILE_SIZE_BYTES := ceiling;
     DOWNLOAD_DIR := lit "downloads";
     requests_head := fun _ => Raise RequestException;
     requests_get := fun _ => Raise RequestException;
     uuid4_hex := lit "9f1c2e7ab04d4c35a6e2f0b1c3d4e5f6";
     YoutubeDL_init := fun _ => Ret tt;
     extract_info := fun opts _ fs =>
       match extracted_path opts with
       | Ret p => (<[p := File content]> fs, Ret (Some ∅))
       | Raise e => (fs, Raise e)
       end;
     prepare_filename := fun opts _ => extracted_path opts;
     mkdtemp_name := fun dir =>
       match dir with
       | Some d => os_path.join d (lit "tmpk3v9x_2a")
       | None => lit "/tmp/tmpk3v9x_2a"
       end;
     dir_st_size := fun _ => 4096;
     discord_ok := fun _ => true |}.

(** Surroundings in which the extractor merges into [My Video.mp4] while
    [prepare_filename] still names [My Video.webm]. *)
Definition sample_env_merging (ceiling : Z) (content : bytes) : Env :=
  let base := sample_env_extracting ceiling content in
  {| bracketed_host_ok := @bracketed_host_ok base;
     nfkc_netloc_ok := @nfkc_netloc_ok base;
     unicode_lower := @unicode_lower base;
     MAX_FILE_SIZE_MB := @MAX_FILE_SIZE_MB base;
     MAX_FILE_SIZE_BYTES := @MAX_FILE_SIZE_BYTES base;
     DOWNLOAD_DIR := @DOWNLOAD_DIR base;
     requests_head := @requests_head base;
     requests_get := @requests_get base;
     uuid4_hex := @uuid4_hex base;
     YoutubeDL_init := @YoutubeDL_init base;
     extract_info := @extract_info base;
     prepare_filename := fun opts _ =>
       match extracted_path opts with
       | Ret p => Ret ((os_path.splitext p).1 ++ lit ".webm")
       | Raise e => Raise e
       end;
     mkdtemp_name := @mkdtemp_name base;
     dir_st_size := @dir_st_size base;
     discord_ok := @discord_ok base |}.

(** A workspace directory and a file system that holds it. *)
Definition sample_dir : str := lit "/tmp/tmpk3v9x_2a".
Definition sample_fs : gmap str node := <[sample_dir := Dir]> ∅.

(** ** Vocabulary of the statements *)

Definition same_function (f g : function_name) : bool :=
  match f, g with
  | Fn_download_with_ytdlp, Fn_download_with_ytdlp => true
  | Fn_download_direct, Fn_download_direct => true
  | Fn_download_video, Fn_download_video => true
  | _, _ => false
  end.

(** The number of entries into [f] that a record of events shows. *)
Fixpoint calls_of (f : function_name) (evs : list event) : nat :=
  match evs with
  | [] => 0
  | Call g _ _ :: evs' => (if same_function g f then 1 else 0) + calls_of f evs'
  | _ :: evs' => calls_of f evs'
  end.

(** The number of bytes a record of events shows written. *)
Fixpoint bytes_written (evs : list event) : Z :=
  match evs with
  | [] => 0
  | Write _ data :: evs' => len data + bytes_written evs'
  | _ :: evs' => bytes_written evs'
  end.

(** The number of bytes in a list of chunks. *)
Definition total_len (chunks : list bytes) : Z := len (concat chunks).

(** The chunks of a stream that fit: the longest prefix whose running count,
    started at [size], stays within the ceiling. *)
Fixpoint fitting (ceiling size : Z) (chunks : list bytes) : list bytes :=
  match chunks with
  | [] => []
  | chunk :: rest =>
      if ceiling <? size + len chunk then []
      else chunk :: fitting ceiling (size + len chunk) rest
  end.

(** Whether the running count, started at [size], passes the ceiling at
    some chunk of the stream. *)
Fixpoint overflows (ceiling size : Z) (chunks : list bytes) : bool :=
  match chunks with
  | [] => false
  | chunk :: rest =>
      (ceiling <? size + len chunk) || overflows ceiling (size + len chunk) rest
  end.

(** Every write that a record of events shows leaves the number of bytes
    written so far, started at [size], within the ceiling. *)
Fixpoint writes_within (ceiling size : Z) (evs : list event) : Prop :=
  match evs with
  | [] => True
  | Write _ data :: evs' =>
      size + len data ≤ ceiling ∧ writes_within ceiling (size + len data) evs'
  | _ :: evs' => writes_within ceiling size evs'
  end.





(** Whether a record of events shows a file handed to the requester. *)
Definition delivers (e : event) : Prop :=
  match e with
  | Discord (FollowupSend (HereIsYourVideo _ _ _)) => True
  | _ => False
  end.

(** A lower-case hexadecimal digit, as [uuid4().hex] is made of. *)
Definition hex_digit (c : N) : bool :=
  ((48 <=? c)%N && (c <=? 57)%N) || ((97 <=? c)%N && (c <=? 102)%N).

(** The content of the file that an event hands to the requester, if it
    hands one. *)
Definition delivered_content (e : event) : option bytes :=
  match e with
  | Discord (FollowupSend (HereIsYourVideo _ _ content)) => Some content
  | _ => None
  end.

(** What a download function may do: anything but address the chat
    platform and create or remove a workspace. *)
Definition download_event (e : event) : bool :=
  match e with
  | Discord _ | Mkdtemp _ | Rmtree _ => false
  | _ => true
  end.



(** Unfolding the plumbing of a computation. *)
Ltac step_M :=
  unfold bind, ret, raise, emit, lift, try_except, with_fs; cbn [fst snd].

(** Closing an equation between closed terms by evaluation. *)
Ltac vm_refl :=
  lazymatch goal with
  | |- ?a = ?b => exact (@eq_refl _ b <: a = b)
  end.

(** * Properties *)

(** ** The sanitizer *)

Lemma reverse_rev {A} (l : list A) : rev l = reverse l.
Proof. unfold reverse. now rewrite rev_append_rev, app_nil_r. Qed.

Lemma class_matches_unsafe c :
  Py.class_matches unsafe_class c = bool_decide (forbidden c).
Proof.
  unfold Py.class_matches, unsafe_class, forbidden; cbn.
  apply eq_true_iff_eq. rewrite bool_decide_eq_true.
  rewrite !orb_true_iff, andb_true_iff, !N.eqb_eq, !N.leb_le.
  rewrite !elem_of_cons, elem_of_nil.
  split; intros H; repeat destruct H as [H|H]; subst; auto 12; try lia; try done.
Qed.

Lemma re_sub_unsafe s :
  Py.re_sub_class unsafe_class (lit "_") s
  = (fun c => if decide (forbidden c) then 95%N else c) <$> s.
Proof.
  induction s as [|c s IH]; [reflexivity|].
  cbn [Py.re_sub_class fmap list_fmap]. rewrite IH, class_matches_unsafe.
  unfold bool_decide, decide. destruct (forbidden_dec c); reflexivity.
Qed.

Lemma lstrip_drop_leading s : Py.lstrip (lit ". ") s = drop_leading s.
Proof.
  induction s as [|c s IH]; [reflexivity|].
  cbn [Py.lstrip drop_leading]. rewrite IH.
  assert (char_in c (lit ". ") = bool_decide (dot_or_space c)) as ->.
  { unfold dot_or_space; cbn. apply eq_true_iff_eq.
    rewrite bool_decide_eq_true, !orb_true_iff, !N.eqb_eq. intuition discriminate. }
  unfold bool_decide, decide. destruct (dot_or_space_dec c); reflexivity.
Qed.

Lemma strip_drop_leading s :
  Py.strip (lit ". ") s = reverse (drop_leading (reverse (drop_leading s))).
Proof.
  unfold Py.strip, Py.rstrip. now rewrite !lstrip_drop_leading, !reverse_rev.
Qed.

Lemma cut_take (s : str) :
  (if 100 <? len s then Py.slice_to s 100 else s) = take 100 s.
Proof.
  unfold len, Py.slice_to. destruct (100 <? Z.of_nat (length s)) eqn:E.
  - reflexivity.
  - apply Z.ltb_ge in E. symmetry. apply take_ge. lia.
Qed.

Lemma drop_leading_incl s c : c ∈ drop_leading s → c ∈ s.
Proof.
  induction s as [|x s IH]; cbn; [done|].
  destruct (decide (dot_or_space x)); [|done].
  intros H. right. auto.
Qed.

Lemma sanitize_refines name : _sanitize_filename name = sanitize_spec name.
Proof.
  unfold _sanitize_filename, sanitize_spec.
  rewrite cut_take, re_sub_unsafe, strip_drop_leading.
  destruct (take 100 _) eqn:E; [|destruct (decide _); [done|reflexivity]].
  destruct (decide _); [reflexivity|done].
Qed.

Lemma video_not_forbidden c : c ∈ lit "video" → ¬ forbidden c.
Proof.
  cbn. rewrite !elem_of_cons, elem_of_nil. unfold forbidden. cbn.
  rewrite !elem_of_cons, !elem_of_nil.
  intros H F.
  repeat destruct H as [H|H]; subst; try done;
    repeat destruct F as [F|F]; try discriminate; try lia; try done.
Qed.

(** C8. For every input, [_sanitize_filename] is the pipeline the
    specification describes (forbidden and control characters replaced by an
    underscore, dots and spaces stripped from both ends, cut at 100
    characters, [video] when nothing is left); it maps the empty string and
    the string of three dots to [video]; its output contains no forbidden
    or control character and is at most 100 characters long. *)
Theorem sanitize_filename_spec (name : str) :
  _sanitize_filename name = sanitize_spec name
  ∧ _sanitize_filename (lit "") = lit "video"
  ∧ _sanitize_filename (lit "...") = lit "video"
  ∧ (∀ c, c ∈ _sanitize_filename name → ¬ forbidden c)
  ∧ (length (_sanitize_filename name) ≤ 100)%nat.
Proof.
  split; [apply sanitize_refines|].
  split; [reflexivity|]. split; [reflexivity|].
  rewrite sanitize_refines. unfold sanitize_spec.
  set (replaced := _ <$> name).
  set (cut := take 100 _).
  assert (Hcut : ∀ c, c ∈ cut → ¬ forbidden c).
  { intros c Hc. subst cut. apply elem_of_take in Hc as (i & Hi & _).
    apply list_elem_of_lookup_2 in Hi.
    apply elem_of_reverse, drop_leading_incl, elem_of_reverse, drop_leading_incl in Hi.
    subst replaced. apply list_elem_of_fmap in Hi as (x & -> & _).
    destruct (decide (forbidden x)) as [|Hx]; [|exact Hx].
    unfold forbidden; cbn. rewrite !elem_of_cons, !elem_of_nil.
    intros F; repeat destruct F as [F|F]; try discriminate; try lia; try done. }
  split.
  - intros c. destruct (decide (cut = [])); [apply video_not_forbidden | apply Hcut].
  - destruct (decide (cut = [])); [cbn; lia|].
    subst cut. rewrite length_take. lia.
Qed.

(** ** Running computations *)

Lemma calls_of_app f evs1 evs2 :
  calls_of f (evs1 ++ evs2) = (calls_of f evs1 + calls_of f evs2)%nat.
Proof.
  induction evs1 as [|e evs1 IH]; [reflexivity|].
  destruct e; cbn; rewrite IH; lia.
Qed.

Lemma bytes_written_app evs1 evs2 :
  bytes_written (evs1 ++ evs2) = bytes_written evs1 + bytes_written evs2.
Proof.
  induction evs1 as [|e evs1 IH]; [reflexivity|].
  destruct e; cbn; rewrite IH; lia.
Qed.

Lemma bytes_written_nonneg evs : 0 ≤ bytes_written evs.
Proof.
  induction evs as [|e evs IH]; [reflexivity|].
  destruct e; cbn; unfold len; lia.
Qed.

Lemma bytes_written_prefix evs' evs :
  evs' `prefix_of` evs → bytes_written evs' ≤ bytes_written evs.
Proof.
  intros [rest ->]. rewrite bytes_written_app.
  pose proof (bytes_written_nonneg rest). lia.
Qed.

(** ** The content-type probe *)

Section Probe.

Context `{env : Env}.

Lemma is_video_content_type_run url fs :
  _is_video_content_type url fs =
    (Ret match requests_head url with
         | Ret resp => Py.startswith (content_type_of resp) (lit "video/")
         | Raise _ => false
         end, fs, [Head url true 10]).
Proof.
  unfold _is_video_content_type. step_M.
  destruct (requests_head url); reflexivity.
Qed.

(** C1, as the code has it.  The probe issues exactly one HEAD request,
    leaves the file system alone and always returns a Boolean, never an
    exception.  It returns true exactly when the request yields a response,
    of whatever status, whose declared content type begins with [video/];
    when the request raises, it returns false. *)
Theorem is_video_content_type_spec url fs :
  ∃ b : bool,
    _is_video_content_type url fs = (Ret b, fs, [Head url true 10])
    ∧ (b = true ↔
       ∃ resp, requests_head url = Ret resp
               ∧ Py.startswith (content_type_of resp) (lit "video/") = true)
    ∧ (∀ e, requests_head url = Raise e → b = false).
Proof.
  eexists. split; [apply is_video_content_type_run|].
  destruct (requests_head url) as [resp|e]; split.
  - split; [intros Hb; exists resp; auto|].
    intros (resp' & [= <-] & Hb). exact Hb.
  - intros e [=].
  - split; [discriminate|]. intros (resp & [=] & _).
  - reflexivity.
Qed.

End Probe.

(** C1, as stated, fails: a HEAD response with status 404 that declares
    the content type [video/mp4] makes the probe return true. *)
Lemma is_video_content_type_ignores_status :
  let resp := response 404 (lit "video/mp4") [] in
  let env := sample_env 100 (Ret resp) (Raise RequestException) in
  let url := lit "https://example.com/gone" in
  requests_head url = Ret resp
  ∧ ¬ (200 ≤ status_code resp < 300)
  ∧ _is_video_content_type url ∅ = (Ret true, ∅, [Head url true 10]).
Proof.
  split; [reflexivity|]. split; [cbn; lia|]. reflexivity.
Qed.

(** ** Streaming to the file *)

Lemma total_len_cons chunk rest :
  total_len (chunk :: rest) = len chunk + total_len rest.
Proof. unfold total_len, len. cbn. rewrite length_app. lia. Qed.

Lemma total_len_app a b : total_len (a ++ b) = total_len a + total_len b.
Proof.
  induction a as [|c a IH]; [reflexivity|].
  cbn [app]. rewrite !total_len_cons, IH. lia.
Qed.

Lemma total_len_nonneg chunks : 0 ≤ total_len chunks.
Proof. unfold total_len, len. lia. Qed.

Lemma overflows_spec ceiling chunks : ∀ size,
  size ≤ ceiling →
  overflows ceiling size chunks = true ↔ ceiling < size + total_len chunks.
Proof.
  induction chunks as [|c rest IH]; intros size Hsize; cbn [overflows].
  - unfold total_len, len; cbn. split; [discriminate | lia].
  - rewrite orb_true_iff, Z.ltb_lt, total_len_cons.
    pose proof (total_len_nonneg rest).
    destruct (Z.lt_ge_cases ceiling (size + len c)) as [Hlt|Hge]; [lia|].
    rewrite (IH _ Hge). lia.
Qed.

Lemma fitting_split ceiling chunks : ∀ size,
  overflows ceiling size chunks = true →
  ∃ over rest,
    chunks = fitting ceiling size chunks ++ over :: rest
    ∧ ceiling < size + total_len (fitting ceiling size chunks) + len over
    ∧ (fitting ceiling size chunks = []
       ∨ size + total_len (fitting ceiling size chunks) ≤ ceiling).
Proof.
  induction chunks as [|c rest IH]; intros size; cbn [overflows fitting].
  - discriminate.
  - destruct (ceiling <? size + len c) eqn:E.
    + intros _. exists c, rest. apply Z.ltb_lt in E.
      split; [reflexivity|]. split; [|now left].
      unfold total_len, len in *; cbn; lia.
    + cbn [orb]. intros H. destruct (IH _ H) as (over & rest' & Heq & Hlt & Hle).
      apply Z.ltb_ge in E.
      exists over, rest'. rewrite total_len_cons. split; [|split].
      * cbn [app]. now rewrite <- Heq.
      * lia.
      * right. destruct Hle as [-> | Hle]; [|lia].
        unfold total_len, len in *; cbn; lia.
Qed.

Lemma writes_within_app ceiling evs1 evs2 : ∀ size,
  writes_within ceiling size (evs1 ++ evs2) ↔
  writes_within ceiling size evs1
  ∧ writes_within ceiling (size + bytes_written evs1) evs2.
Proof.
  induction evs1 as [|e evs1 IH]; intros size.
  - cbn. rewrite Z.add_0_r. tauto.
  - destruct e; cbn [app writes_within bytes_written]; rewrite IH;
      rewrite ?Z.add_assoc; tauto.
Qed.

Lemma writes_within_bound ceiling evs : ∀ size,
  writes_within ceiling size evs → size + bytes_written evs ≤ Z.max size ceiling.
Proof.
  induction evs as [|e evs IH]; intros size H.
  - cbn. lia.
  - destruct e; cbn [writes_within bytes_written] in *; try (apply IH, H).
    destruct H as [Hle H]. apply IH in H. lia.
Qed.

Section Stream.

Context `{env : Env}.

(** The loop, run on a file that is open at [filepath]. *)
Lemma stream_to_file_run url filepath bk chunks : ∀ size content fs,
  fs !! filepath = Some (File content) →
  stream_to_file url filepath chunks bk size fs =
    if overflows MAX_FILE_SIZE_BYTES size chunks then
      (Ret None, delete filepath fs,
       (Write filepath <$> fitting MAX_FILE_SIZE_BYTES size chunks)
       ++ [Remove filepath; Warning (DirectExceeded url)])
    else
      (if bk then Raise RequestException else Ret (Some filepath),
       <[filepath := File (content ++ concat chunks)]> fs,
       Write filepath <$> chunks).
Proof.
  induction chunks as [|c rest IH]; intros size content fs Hfs;
    cbn [stream_to_file overflows fitting].
  - rewrite app_nil_r, insert_id by exact Hfs. destruct bk; reflexivity.
  - destruct (MAX_FILE_SIZE_BYTES <? size + len c) eqn:E; cbn [orb].
    + step_M. unfold os_remove. rewrite Hfs. reflexivity.
    + unfold bind at 1. unfold f_write at 1. rewrite Hfs.
      rewrite (IH _ (content ++ c)) by apply lookup_insert_eq.
      rewrite delete_insert_eq, insert_insert_eq.
      cbn [concat]. rewrite app_assoc.
      destruct (overflows _ _ rest); reflexivity.
Qed.

(** Whatever the state of the file system, the loop keeps every write
    within the ceiling. *)
Lemma stream_to_file_within url filepath bk chunks : ∀ size fs,
  writes_within MAX_FILE_SIZE_BYTES size (stream_to_file url filepath chunks bk size fs).2.
Proof.
  induction chunks as [|c rest IH]; intros size fs; cbn [stream_to_file].
  - destruct bk; exact I.
  - destruct (MAX_FILE_SIZE_BYTES <? size + len c) eqn:E.
    + step_M. unfold os_remove. destruct (fs !! filepath) as [[]|]; exact I.
    + apply Z.ltb_ge in E. unfold bind at 1. unfold f_write at 1.
      destruct (fs !! filepath) as [[content|]|]; try (cbn; split; [lia | exact I]).
      specialize (IH (size + len c) (<[filepath := File (content ++ c)]> fs)).
      destruct (stream_to_file _ _ _ _ _ _) as [[r fs'] evs].
      cbn. split; [lia | exact IH].
Qed.

End Stream.

(** ** The direct fetch *)

Section Direct.

Context `{env : Env}.

Lemma looks_like_video_run url fs :
  ∃ b, looks_like_video url fs
       = (Ret b, fs, if _has_video_extension url then [] else [Head url true 10]).
Proof.
  unfold looks_like_video. destruct (_has_video_extension url).
  - now exists true.
  - eexists. apply is_video_content_type_run.
Qed.

Lemma stream_to_file_quiet url filepath bk chunks f : ∀ size fs,
  calls_of f (stream_to_file url filepath chunks bk size fs).2 = 0%nat.
Proof.
  induction chunks as [|c rest IH]; intros size fs; cbn [stream_to_file].
  - destruct bk; reflexivity.
  - destruct (MAX_FILE_SIZE_BYTES <? size + len c).
    + step_M. unfold os_remove. destruct (fs !! filepath) as [[]|]; reflexivity.
    + unfold bind at 1. unfold f_write at 1.
      destruct (fs !! filepath) as [[content|]|]; try reflexivity.
      specialize (IH (size + len c) (<[filepath := File (content ++ c)]> fs)).
      destruct (stream_to_file _ _ _ _ _ _) as [[r fs'] evs]. exact IH.
Qed.

(** The shape of every run of [download_direct]: it returns, it enters
    exactly once and enters no other download function, and every write
    stays within the ceiling. *)
Lemma download_direct_shape url dest_dir fs :
  ∃ r fs' evs,
    download_direct url dest_dir fs
    = (Ret r, fs', Call Fn_download_direct url dest_dir :: evs)
    ∧ (∀ f, calls_of f evs = 0%nat)
    ∧ writes_within MAX_FILE_SIZE_BYTES 0 evs.
Proof.
  unfold download_direct.
  destruct (looks_like_video_run url fs) as [b Hb].
  unfold bind at 1. unfold emit at 1. unfold bind at 1. rewrite Hb.
  set (gev := if _has_video_extension url then [] else [Head url true 10]).
  assert (Hq : ∀ f, calls_of f gev = 0%nat) by (intros f; subst gev; now destruct (_has_video_extension url)).
  assert (Hw : ∀ s, writes_within MAX_FILE_SIZE_BYTES s gev) by (intros s; subst gev; now destruct (_has_video_extension url)).
  assert (Hb0 : bytes_written gev = 0) by (subst gev; now destruct (_has_video_extension url)).
  destruct b; cbn [negb].
  2:{ do 3 eexists. split; [reflexivity|]. rewrite app_nil_r. cbn [app]. auto. }
  unfold try_except, bind, emit, lift, raise_for_status, raise, ret.
  destruct (requests_get url) as [resp|e].
  2:{ do 3 eexists. split; [reflexivity|]. cbn [app].
      split; [intros f; rewrite calls_of_app, Hq; reflexivity|].
      apply writes_within_app. split; [apply Hw | exact I]. }
  destruct ((400 <=? status_code resp) && (status_code resp <? 600)).
  { do 3 eexists. split; [reflexivity|]. cbn [app].
    split; [intros f; rewrite calls_of_app, Hq; reflexivity|].
    apply writes_within_app. split; [apply Hw | exact I]. }
  destruct (direct_filepath url dest_dir resp) as [filepath|e].
  2:{ do 3 eexists. split; [reflexivity|]. cbn [app].
      split; [intros f; rewrite calls_of_app, Hq; reflexivity|].
      apply writes_within_app. split; [apply Hw | exact I]. }
  destruct (open_wb filepath fs) as [[[[]|e] fs1] ev1] eqn:Eopen.
  2:{ assert (ev1 = [OpenWb filepath]) as ->.
      { unfold open_wb in Eopen.
        destruct (fs !! filepath) as [[]|]; try destruct (os_path.isdir _ _);
          now inversion Eopen. }
      do 3 eexists. split; [reflexivity|]. cbn [app].
      split; [intros f; rewrite calls_of_app, Hq; reflexivity|].
      apply writes_within_app. split; [apply Hw | exact I]. }
  assert (ev1 = [OpenWb filepath]) as ->.
  { unfold open_wb in Eopen.
    destruct (fs !! filepath) as [[]|]; try destruct (os_path.isdir _ _);
      now inversion Eopen. }
  pose proof (stream_to_file_quiet url filepath (broken resp) (chunks resp)) as Hsq.
  pose proof (stream_to_file_within url filepath (broken resp) (chunks resp) 0 fs1) as Hsw.
  destruct (stream_to_file url filepath (chunks resp) (broken resp) 0 fs1)
    as [[[r|e] fs2] ev2] eqn:Es.
  - do 3 eexists. split; [reflexivity|]. cbn [app].
    split.
    + intros f. specialize (Hsq f 0 fs1). rewrite Es in Hsq.
      rewrite calls_of_app, Hq. cbn. rewrite ?app_nil_r. exact Hsq.
    + apply writes_within_app. split; [apply Hw|]. rewrite Hb0, ?app_nil_r. exact Hsw.
  - do 3 eexists. split; [reflexivity|]. cbn [app].
    split.
    + intros f. specialize (Hsq f 0 fs1). rewrite Es in Hsq.
      rewrite calls_of_app, Hq. cbn. rewrite calls_of_app. cbn in Hsq. rewrite Hsq. reflexivity.
    + apply writes_within_app. split; [apply Hw|]. rewrite Hb0. cbn.
      apply writes_within_app. split; [exact Hsw | exact I].
Qed.

Lemma open_wb_run filepath fs :
  fs !! filepath ≠ Some Dir →
  os_path.isdir fs (os_path.dirname filepath) = true →
  open_wb filepath fs = (Ret tt, <[filepath := File []]> fs, [OpenWb filepath]).
Proof.
  intros Hnd Hparent. unfold open_wb. rewrite Hparent.
  destruct (fs !! filepath) as [[]|]; congruence.
Qed.

Lemma open_wb_inv filepath fs fs1 ev1 :
  open_wb filepath fs = (Ret tt, fs1, ev1) →
  fs1 = <[filepath := File []]> fs ∧ ev1 = [OpenWb filepath].
Proof.
  unfold open_wb.
  destruct (fs !! filepath) as [[]|]; try destruct (os_path.isdir _ _);
    intros [= <- <-]; auto.
Qed.

(** Once the guard has passed, the request has been answered without an
    error status and the file has been opened, [download_direct] is the
    streaming loop, with its exception turned into [None] and a warning. *)
Lemma download_direct_streaming url dest_dir fs resp filepath :
  (looks_like_video url fs).1.1 = Ret true →
  requests_get url = Ret resp →
  ¬ (400 ≤ status_code resp < 600) →
  direct_filepath url dest_dir resp = Ret filepath →
  fs !! filepath ≠ Some Dir →
  os_path.isdir fs (os_path.dirname filepath) = true →
  download_direct url dest_dir fs =
    let '(r, fs2, ev2) :=
      stream_to_file url filepath (chunks resp) (broken resp) 0
        (<[filepath := File []]> fs) in
    (Ret match r with Ret x => x | Raise _ => None end,
     fs2,
     Call Fn_download_direct url dest_dir
       :: (looks_like_video url fs).2
       ++ [Get url true 30; OpenWb filepath] ++ ev2
       ++ match r with
          | Ret _ => []
          | Raise e => [Warning (DirectFailed url e)]
          end).
Proof.
  intros Hguard Hget Hstatus Hpath Hnd Hparent.
  unfold download_direct.
  destruct (looks_like_video_run url fs) as [b Hb].
  rewrite Hb in Hguard |- *. cbn [fst snd] in Hguard. injection Hguard as ->.
  unfold bind at 1. unfold emit at 1. unfold bind at 1. rewrite Hb. cbn [negb snd].
  unfold try_except, bind, emit, lift, raise_for_status, raise, ret.
  rewrite Hget.
  assert ((400 <=? status_code resp) && (status_code resp <? 600) = false) as ->.
  { apply andb_false_iff. rewrite Z.leb_gt, Z.ltb_ge. lia. }
  rewrite Hpath, (open_wb_run _ _ Hnd Hparent).
  destruct (stream_to_file _ _ _ _ _ _) as [[[r|e] fs2] ev2]; cbn [app];
    rewrite ?app_nil_r; reflexivity.
Qed.

(** A path comes back only from a stream that ran to its end. *)
Lemma download_direct_success url dest_dir fs filepath fs' evs :
  download_direct url dest_dir fs = (Ret (Some filepath), fs', evs) →
  ∃ resp,
    requests_get url = Ret resp
    ∧ direct_filepath url dest_dir resp = Ret filepath
    ∧ overflows MAX_FILE_SIZE_BYTES 0 (chunks resp) = false
    ∧ fs' = <[filepath := File (concat (chunks resp))]> fs.
Proof.
  unfold download_direct.
  destruct (looks_like_video_run url fs) as [b Hb].
  unfold bind at 1. unfold emit at 1. unfold bind at 1. rewrite Hb.
  destruct b; cbn [negb]; [|step_M; discriminate].
  unfold try_except, bind, emit, lift, raise_for_status, raise, ret.
  destruct (requests_get url) as [resp|e]; [|discriminate].
  destruct ((400 <=? status_code resp) && (status_code resp <? 600)); [discriminate|].
  destruct (direct_filepath url dest_dir resp) as [p|e] eqn:Epath; [|discriminate].
  destruct (open_wb p fs) as [[[[]|e] fs1] ev1] eqn:Eopen; [|discriminate].
  apply open_wb_inv in Eopen as [-> ->].
  rewrite (stream_to_file_run url p (broken resp) (chunks resp) 0 [])
    by apply lookup_insert_eq.
  destruct (overflows _ _ _) eqn:Eov; [discriminate|].
  destruct (broken resp); [discriminate|].
  intros [= <- <- <-]. exists resp. rewrite insert_insert_eq. auto.
Qed.

(** C7. When the URL has no video extension and the content-type probe
    answers false, [download_direct] returns [None] at once: the only request
    it makes is the HEAD of the probe, there is no GET, no file is opened or
    written, and the file system is left as it was. *)
Theorem download_direct_declines url dest_dir fs :
  _has_video_extension url = false →
  (_is_video_content_type url fs).1.1 = Ret false →
  download_direct url dest_dir fs
  = (Ret None, fs, [Call Fn_download_direct url dest_dir; Head url true 10])
  ∧ ∀ e, e ∈ (download_direct url dest_dir fs).2 →
         match e with
         | Get _ _ _ | OpenWb _ | Write _ _ => False
         | _ => True
         end.
Proof.
  intros Hext Hprobe.
  assert (download_direct url dest_dir fs
          = (Ret None, fs, [Call Fn_download_direct url dest_dir; Head url true 10])) as ->.
  { unfold download_direct, looks_like_video. rewrite Hext.
    rewrite is_video_content_type_run in Hprobe. cbn [fst snd] in Hprobe.
    injection Hprobe as Hprobe.
    unfold bind at 1. unfold emit at 1. unfold bind at 1.
    rewrite is_video_content_type_run, Hprobe. reflexivity. }
  split; [reflexivity|].
  intros e He. cbn in He. rewrite !elem_of_cons, elem_of_nil in He.
  destruct He as [-> | [-> | []]]; exact I.
Qed.

(** C2. When the guard has passed, the GET has been answered without an
    error status and the output file has been opened, a body whose size
    exceeds the ceiling is cut off at the first chunk that takes the running
    count past the ceiling: the chunks before it are the only ones written,
    the file is removed, the warning is logged and [None] is returned; the
    file system ends as it started, without the output file. *)
Theorem download_direct_enforces_ceiling url dest_dir fs resp filepath :
  0 ≤ MAX_FILE_SIZE_BYTES →
  (looks_like_video url fs).1.1 = Ret true →
  requests_get url = Ret resp →
  ¬ (400 ≤ status_code resp < 600) →
  direct_filepath url dest_dir resp = Ret filepath →
  fs !! filepath ≠ Some Dir →
  os_path.isdir fs (os_path.dirname filepath) = true →
  MAX_FILE_SIZE_BYTES < total_len (chunks resp) →
  ∃ fitted over rest,
    chunks resp = fitted ++ over :: rest
    ∧ (fitted = [] ∨ total_len fitted ≤ MAX_FILE_SIZE_BYTES)
    ∧ MAX_FILE_SIZE_BYTES < total_len fitted + len over
    ∧ download_direct url dest_dir fs
      = (Ret None, delete filepath fs,
         Call Fn_download_direct url dest_dir
           :: (looks_like_video url fs).2
           ++ [Get url true 30; OpenWb filepath]
           ++ (Write filepath <$> fitted)
           ++ [Remove filepath; Warning (DirectExceeded url)])
    ∧ delete filepath fs !! filepath = None.
Proof.
  intros Hmax Hguard Hget Hstatus Hpath Hnd Hparent Hbig.
  apply (overflows_spec _ _ 0 Hmax) in Hbig.
  destruct (fitting_split _ _ _ Hbig) as (over & rest & Heq & Hlt & Hle).
  exists (fitting MAX_FILE_SIZE_BYTES 0 (chunks resp)), over, rest.
  split; [exact Heq|]. split; [exact Hle|]. split; [exact Hlt|].
  split; [|apply lookup_delete_eq].
  rewrite (download_direct_streaming _ _ _ _ _ Hguard Hget Hstatus Hpath Hnd Hparent).
  rewrite (stream_to_file_run url filepath (broken resp) (chunks resp) 0 [])
    by apply lookup_insert_eq.
  rewrite Hbig, delete_insert_eq, app_nil_r. reflexivity.
Qed.

(** C9. In every run of [download_direct] each write leaves the number of
    bytes written so far within the ceiling, the chunk being counted and
    checked before it is written; so at every point of the run the bytes
    written do not exceed the ceiling (or are none, should the ceiling be
    negative). *)
Theorem download_direct_writes_within_ceiling url dest_dir fs :
  writes_within MAX_FILE_SIZE_BYTES 0 (download_direct url dest_dir fs).2
  ∧ ∀ evs, evs `prefix_of` (download_direct url dest_dir fs).2 →
           bytes_written evs ≤ Z.max 0 MAX_FILE_SIZE_BYTES.
Proof.
  destruct (download_direct_shape url dest_dir fs) as (r & fs' & evs & -> & _ & Hw).
  assert (H : writes_within MAX_FILE_SIZE_BYTES 0 (Call Fn_download_direct url dest_dir :: evs))
    by exact Hw.
  split; [exact H|].
  intros evs' Hpre. apply bytes_written_prefix in Hpre.
  apply writes_within_bound in H. cbn [snd] in *. lia.
Qed.

End Direct.

(** A page that is not a video: no extension, [text/html] on HEAD. *)
Lemma download_direct_declines_page :
  let env := sample_env 100 (Ret (response 200 (lit "text/html") []))
                        (Raise RequestException) in
  let url := lit "https://example.com/page" in
  _has_video_extension url = false
  ∧ download_direct url sample_dir sample_fs
    = (Ret None, sample_fs, [Call Fn_download_direct url sample_dir; Head url true 10]).
Proof.
  intros env url.
  assert (Hext : _has_video_extension url = false) by (vm_compute; reflexivity).
  assert (Hprobe : (_is_video_content_type url sample_fs).1.1 = Ret false)
    by (vm_compute; reflexivity).
  split; [exact Hext|].
  exact (proj1 (download_direct_declines url sample_dir sample_fs Hext Hprobe)).
Defined.

(** A ceiling of 100 bytes and a body of 101 bytes. *)
Lemma download_direct_rejects_101_bytes :
  let body := [repeat x00 101] in
  let env := sample_env 100 (Raise RequestException)
                        (Ret (response 200 (lit "video/mp4") body)) in
  let url := lit "https://example.com/clip.mp4" in
  let filepath := lit "/tmp/tmpk3v9x_2a/video_9f1c2e7a.mp4" in
  MAX_FILE_SIZE_BYTES < total_len body
  ∧ ∃ fitted over rest,
      body = fitted ++ over :: rest
      ∧ (fitted = [] ∨ total_len fitted ≤ MAX_FILE_SIZE_BYTES)
      ∧ MAX_FILE_SIZE_BYTES < total_len fitted + len over
      ∧ download_direct url sample_dir sample_fs
        = (Ret None, delete filepath sample_fs,
           Call Fn_download_direct url sample_dir
             :: (looks_like_video url sample_fs).2
             ++ [Get url true 30; OpenWb filepath]
             ++ (Write filepath <$> fitted)
             ++ [Remove filepath; Warning (DirectExceeded url)])
      ∧ delete filepath sample_fs !! filepath = None.
Proof.
  intros body env url filepath.
  assert (Hbig : MAX_FILE_SIZE_BYTES < total_len body) by (vm_compute; reflexivity).
  split; [exact Hbig|].
  apply (download_direct_enforces_ceiling url sample_dir sample_fs
           (response 200 (lit "video/mp4") body) filepath).
  - vm_compute. discriminate.
  - vm_compute. reflexivity.
  - reflexivity.
  - cbn. lia.
  - vm_compute. reflexivity.
  - vm_compute. discriminate.
  - vm_compute. reflexivity.
  - exact Hbig.
Defined.

(** ** The extractor strategy and the resolver *)

Section Resolver.

Context `{env : Env}.

(** The shape of every run of [download_with_ytdlp]: it returns, it enters
    exactly once and enters no other download function, it constructs the
    extractor once, with [ydl_opts], and a path it returns is not empty. *)
Lemma download_with_ytdlp_shape url dest_dir fs :
  ∃ r fs' evs,
    download_with_ytdlp url dest_dir fs
    = (Ret r, fs',
       Call Fn_download_with_ytdlp url dest_dir :: YoutubeDL (ydl_opts dest_dir) :: evs)
    ∧ (∀ f, calls_of f evs = 0%nat)
    ∧ (∀ opts, YoutubeDL opts ∉ evs)
    ∧ r ≠ Some [].
Proof.
  unfold download_with_ytdlp, try_except, bind, emit, lift, ret, with_fs, ydl_extract_info.
  destruct (YoutubeDL_init (ydl_opts dest_dir)) as [[]|e].
  2:{ do 3 eexists. split; [reflexivity|]. cbn.
      split; [reflexivity|]. split; [|done].
      intros opts. rewrite elem_of_cons, elem_of_nil. intros [[=]|[]]. }
  destruct (extract_info (ydl_opts dest_dir) url fs) as [fs1 [[info|]|e]].
  - destruct (prepare_filename (ydl_opts dest_dir) info) as [filepath|e].
    + set (filepath' := if negb (os_path.exists_ fs1 filepath)
                        then (os_path.splitext filepath).1 ++ lit ".mp4"
                        else filepath).
      destruct (os_path.exists_ fs1 filepath') eqn:Ex.
      * do 3 eexists. split; [reflexivity|]. cbn.
        split; [reflexivity|]. split.
        -- intros opts. rewrite elem_of_cons, elem_of_nil. intros [[=]|[]].
        -- intros [= E]. rewrite E in Ex. discriminate.
      * do 3 eexists. split; [reflexivity|]. cbn.
        split; [reflexivity|]. split; [|done].
        intros opts. rewrite elem_of_cons, elem_of_nil. intros [[=]|[]].
    + do 3 eexists. split; [reflexivity|]. cbn.
      split; [reflexivity|]. split; [|done].
      intros opts. rewrite !elem_of_cons, elem_of_nil. intros [[=]|[[=]|[]]].
  - do 3 eexists. split; [reflexivity|]. cbn.
    split; [reflexivity|]. split; [|done].
    intros opts. rewrite elem_of_cons, elem_of_nil. intros [[=]|[]].
  - do 3 eexists. split; [reflexivity|]. cbn.
    split; [reflexivity|]. split; [|done].
    intros opts. rewrite !elem_of_cons, elem_of_nil. intros [[=]|[[=]|[]]].
Qed.



(** C4, on the code.  The options that [download_with_ytdlp] hands to the
    extractor are the eight entries of [ydl_opts]; none of them is
    [ffmpeg_location], in any surroundings. *)
Theorem download_with_ytdlp_omits_ffmpeg_location url dest_dir fs :
  YoutubeDL (ydl_opts dest_dir) ∈ (download_with_ytdlp url dest_dir fs).2
  ∧ (∀ opts, YoutubeDL opts ∈ (download_with_ytdlp url dest_dir fs).2 →
             opts = ydl_opts dest_dir)
  ∧ ydl_opts dest_dir !! lit "ffmpeg_location" = None
  ∧ dom (ydl_opts dest_dir)
    = list_to_set [lit "outtmpl"; lit "format"; lit "merge_output_format";
                   lit "noplaylist"; lit "quiet"; lit "no_warnings";
                   lit "socket_timeout"; lit "retries"].
Proof.
  destruct (download_with_ytdlp_shape url dest_dir fs)
    as (r & fs' & evs & -> & _ & Hy & _).
  cbn [snd]. split; [|split; [|split]].
  - rewrite !elem_of_cons. auto.
  - intros opts. rewrite !elem_of_cons. intros [[=]|[[= ->]|H]]; [reflexivity|].
    now destruct (Hy opts).
  - reflexivity.
  - unfold ydl_opts. rewrite dom_list_to_map_L. reflexivity.
Qed.

End Resolver.


(** ** The command handler *)

Section Command.

Context `{env : Env}.

Variable resolver : str -> str -> M (option str).

Lemma rmtree_clears (name : str) (fs : gmap str node) (p : str) :
  path_under name p →
  filter (fun kv : str * node => ¬ path_under name kv.1) fs !! p = None.
Proof.
  intros Hu. apply map_lookup_filter_None. right. intros x _ Hn. exact (Hn Hu).
Qed.

(** The handler, once the URL is accepted, the platform has acknowledged and
    the workspace has been created: the body runs, then the workspace goes,
    whatever the body did. *)
Lemma download_command_with_run url fs :
  _is_valid_url url = true →
  discord_ok (Defer true) = true →
  fs !! mkdtemp_name (workspace_parent fs) = None →
  download_command_with resolver url fs =
    let tmp_dir := mkdtemp_name (workspace_parent fs) in
    let '(r, fs2, ev2) := respond resolver url tmp_dir (<[tmp_dir := Dir]> fs) in
    (r, filter (fun kv : str * node => ¬ path_under tmp_dir kv.1) fs2,
     Discord (Defer true) :: Mkdtemp tmp_dir :: ev2 ++ [Rmtree tmp_dir]).
Proof.
  intros Hvalid Hdefer Hfree.
  unfold download_command_with. rewrite Hvalid. cbn [negb].
  unfold bind at 1. unfold discord at 1. rewrite Hdefer.
  unfold bind at 1. unfold with_fs at 1.
  unfold bind at 1. unfold tempfile_mkdtemp at 1. rewrite Hfree.
  unfold try_finally, shutil_rmtree.
  destruct (respond _ _ _ _) as [[r fs2] ev2]. reflexivity.
Qed.

Lemma respond_prefix url tmp_dir fs :
  (resolver url tmp_dir fs).2 `prefix_of` (respond resolver url tmp_dir fs).2
  ∧ ∀ e, (resolver url tmp_dir fs).1.1 = Raise e →
         (respond resolver url tmp_dir fs).1.1 = Raise e.
Proof.
  unfold respond, bind.
  destruct (resolver url tmp_dir fs) as [[[filepath|e] fs1] ev1]; cbn [fst snd].
  - split; [|discriminate].
    match goal with
    | |- context [match ?m fs1 with _ => _ end] =>
        destruct (m fs1) as [[r fs2] ev2]
    end.
    now exists ev2.
  - split; [reflexivity | intros e0 [= ->]; reflexivity].
Qed.

(** C6. Once the workspace directory has been created, which happens
    before the resolver starts, the handler ends by removing it on every
    path: whether the resolver returns or raises and whether the replies to
    the platform go through or raise, the last thing that happens is the
    removal, and afterwards neither the directory nor anything below it
    exists.  An exception of the resolver still reaches the caller. *)
Theorem download_command_removes_workspace url fs :
  _is_valid_url url = true →
  discord_ok (Defer true) = true →
  fs !! mkdtemp_name (workspace_parent fs) = None →
  let tmp_dir := mkdtemp_name (workspace_parent fs) in
  let resolution := resolver url tmp_dir (<[tmp_dir := Dir]> fs) in
  ∃ r fs' body_evs,
    download_command_with resolver url fs
    = (r, fs', Discord (Defer true) :: Mkdtemp tmp_dir :: body_evs ++ [Rmtree tmp_dir])
    ∧ resolution.2 `prefix_of` body_evs
    ∧ (∀ p, path_under tmp_dir p → fs' !! p = None)
    ∧ fs' !! tmp_dir = None
    ∧ (∀ e, resolution.1.1 = Raise e → r = Raise e).
Proof.
  intros Hvalid Hdefer Hfree tmp_dir resolution.
  rewrite (download_command_with_run url fs Hvalid Hdefer Hfree).
  cbv zeta. fold tmp_dir.
  destruct (respond_prefix url tmp_dir (<[tmp_dir := Dir]> fs)) as [Hpre Hraise].
  fold resolution in Hpre, Hraise.
  destruct (respond _ _ _ _) as [[r fs2] ev2].
  exists r, (filter (fun kv : str * node => ¬ path_under tmp_dir kv.1) fs2), ev2.
  split; [reflexivity|]. split; [exact Hpre|].
  split; [intros p; apply rmtree_clears|].
  split; [apply rmtree_clears; now left | exact Hraise].
Qed.

(** C5, as the code has it.  When the resolver hands back the path of a
    zero-byte file, the handler (under a non-negative ceiling) answers with
    the message that the downloaded file is empty and hands over no file.
    The direct fetch itself returns a path whenever the stream ran to its
    end, and the file then holds exactly the bytes of the stream, none if
    the stream carried none. *)
Theorem zero_byte_file_is_refused url fs filepath fs2 ev2 :
  _is_valid_url url = true →
  discord_ok (Defer true) = true →
  fs !! mkdtemp_name (workspace_parent fs) = None →
  0 ≤ MAX_FILE_SIZE_BYTES →
  let tmp_dir := mkdtemp_name (workspace_parent fs) in
  resolver url tmp_dir (<[tmp_dir := Dir]> fs) = (Ret (Some filepath), fs2, ev2) →
  fs2 !! filepath = Some (File []) →
  (∃ r fs',
     download_command_with resolver url fs
     = (r, fs',
        Discord (Defer true) :: Mkdtemp tmp_dir
          :: ev2 ++ [Discord (FollowupSend EmptyFile); Rmtree tmp_dir])
     ∧ ¬ delivers (Discord (FollowupSend EmptyFile)))
  ∧ (∀ url' dest_dir fs0 filepath' fs' evs,
       download_direct url' dest_dir fs0 = (Ret (Some filepath'), fs', evs) →
       ∃ resp, requests_get url' = Ret resp
               ∧ fs' !! filepath' = Some (File (concat (chunks resp)))).
Proof.
  intros Hvalid Hdefer Hfree Hmax tmp_dir Hres Hempty. split.
  - rewrite (download_command_with_run url fs Hvalid Hdefer Hfree).
    cbv zeta. fold tmp_dir.
    unfold respond. unfold bind at 1. rewrite Hres.
    unfold bind at 1. unfold os_path_getsize at 1. rewrite Hempty.
    change (len []) with 0.
    assert ((MAX_FILE_SIZE_BYTES <? 0) = false) as -> by (apply Z.ltb_ge; lia).
    cbn [Z.eqb]. unfold discord.
    destruct (discord_ok (FollowupSend EmptyFile)); cbn [app];
      rewrite <- app_assoc; do 2 eexists; (split; [reflexivity | exact id]).
  - intros url' dest_dir fs0 filepath' fs' evs Hrun.
    apply download_direct_success in Hrun as (resp & Hget & _ & _ & ->).
    exists resp. split; [exact Hget | apply lookup_insert_eq].
Qed.

End Command.

(** The handler run on [clip.mp4] with an empty file system: the workspace
    [/tmp/tmpk3v9x_2a] is created, used and gone afterwards. *)
Lemma download_command_cleans_up :
  let env := sample_env 100 (Raise RequestException)
                        (Ret (response 200 (lit "video/mp4") [repeat x00 42])) in
  let url := lit "https://example.com/clip.mp4" in
  let tmp_dir := mkdtemp_name (workspace_parent ∅) in
  let resolution := download_video url tmp_dir (<[tmp_dir := Dir]> ∅) in
  tmp_dir = lit "/tmp/tmpk3v9x_2a"
  ∧ ∃ r fs' body_evs,
      download_command_with download_video url ∅
      = (r, fs', Discord (Defer true) :: Mkdtemp tmp_dir :: body_evs ++ [Rmtree tmp_dir])
      ∧ resolution.2 `prefix_of` body_evs
      ∧ (∀ p, path_under tmp_dir p → fs' !! p = None)
      ∧ fs' !! tmp_dir = None
      ∧ (∀ e, resolution.1.1 = Raise e → r = Raise e).
Proof.
  intros env url tmp_dir resolution. split; [reflexivity|].
  apply (download_command_removes_workspace download_video url ∅).
  - vm_compute. reflexivity.
  - reflexivity.
  - vm_compute. reflexivity.
Defined.

(** C5, as stated, fails: a direct fetch that is answered with the content
    type [video/mp4] and a body of no bytes succeeds and returns the path of
    a zero-byte file. *)
Lemma download_direct_returns_empty_file :
  let resp := response 200 (lit "video/mp4") [] in
  let env := sample_env 100 (Raise RequestException) (Ret resp) in
  let url := lit "https://example.com/clip.mp4" in
  let filepath := lit "/tmp/tmpk3v9x_2a/video_9f1c2e7a.mp4" in
  requests_get url = Ret resp
  ∧ content_type_of resp = lit "video/mp4"
  ∧ (download_direct url sample_dir sample_fs).1
    = (Ret (Some filepath), <[filepath := File []]> sample_fs)
  ∧ <[filepath := File []]> sample_fs !! filepath = Some (File []).
Proof.
  split; [reflexivity|]. split; [vm_compute; reflexivity|].
  split; vm_compute; reflexivity.
Qed.

(** The handler on that empty answer: the requester is told that the file
    is empty. *)
Lemma download_command_refuses_empty_file :
  let env := sample_env 100 (Raise RequestException)
                        (Ret (response 200 (lit "video/mp4") [])) in
  let url := lit "https://example.com/clip.mp4" in
  let tmp_dir := mkdtemp_name (workspace_parent ∅) in
  let resolution := download_video url tmp_dir (<[tmp_dir := Dir]> ∅) in
  resolution.1.1 = Ret (Some (lit "/tmp/tmpk3v9x_2a/video_9f1c2e7a.mp4"))
  ∧ ∃ r fs',
      download_command_with download_video url ∅
      = (r, fs',
         Discord (Defer true) :: Mkdtemp tmp_dir
           :: resolution.2 ++ [Discord (FollowupSend EmptyFile); Rmtree tmp_dir]).
Proof.
  intros env url tmp_dir resolution. split; [vm_compute; reflexivity|].
  destruct (zero_byte_file_is_refused download_video url ∅
              (lit "/tmp/tmpk3v9x_2a/video_9f1c2e7a.mp4")
              resolution.1.2 resolution.2) as [(r & fs' & Hrun & _) _].
  - vm_compute. reflexivity.
  - reflexivity.
  - vm_compute. reflexivity.
  - cbn. lia.
  - vm_compute. reflexivity.
  - vm_compute. reflexivity.
  - exists r, fs'. exact Hrun.
Defined.

(** ** URL validation and the case of the scheme *)














Section UrlCase.

Context `{env : Env}.






End UrlCase.


(** * Further properties *)

(** ** What the download functions leave alone *)

Section DownloadEvents.

Context `{env : Env}.

Lemma stream_to_file_download_events url filepath bk chunks : ∀ size fs,
  Forall (fun e => download_event e = true)
         (stream_to_file url filepath chunks bk size fs).2.
Proof.
  induction chunks as [|c rest IH]; intros size fs; cbn [stream_to_file].
  - destruct bk; constructor.
  - destruct (MAX_FILE_SIZE_BYTES <? size + len c).
    + step_M. unfold os_remove.
      destruct (fs !! filepath) as [[]|]; repeat constructor.
    + unfold bind at 1. unfold f_write at 1.
      destruct (fs !! filepath) as [[content|]|]; try (repeat constructor).
      specialize (IH (size + len c) (<[filepath := File (content ++ c)]> fs)).
      destruct (stream_to_file _ _ _ _ _ _) as [[r fs'] evs].
      constructor; [reflexivity | exact IH].
Qed.

Lemma download_direct_download_events url dest_dir fs :
  Forall (fun e => download_event e = true) (download_direct url dest_dir fs).2.
Proof.
  unfold download_direct.
  destruct (looks_like_video_run url fs) as [b Hb].
  unfold bind at 1. unfold emit at 1. unfold bind at 1. rewrite Hb.
  set (gev := if _has_video_extension url then [] else [Head url true 10]).
  assert (Hg : Forall (fun e => download_event e = true) gev)
    by (subst gev; destruct (_has_video_extension url); repeat constructor).
  destruct b; cbn [negb].
  2:{ cbn. rewrite app_nil_r. constructor; [reflexivity | exact Hg]. }
  unfold try_except, bind, emit, lift, raise_for_status, raise, ret.
  destruct (requests_get url) as [resp|e].
  2:{ cbn. constructor; [reflexivity|]. apply Forall_app. split; [exact Hg|].
      repeat constructor. }
  destruct ((400 <=? status_code resp) && (status_code resp <? 600)).
  { cbn. constructor; [reflexivity|]. apply Forall_app. split; [exact Hg|].
    repeat constructor. }
  destruct (direct_filepath url dest_dir resp) as [filepath|e].
  2:{ cbn. constructor; [reflexivity|]. apply Forall_app. split; [exact Hg|].
      repeat constructor. }
  destruct (open_wb filepath fs) as [[[[]|e] fs1] ev1] eqn:Eopen.
  2:{ assert (ev1 = [OpenWb filepath]) as ->.
      { unfold open_wb in Eopen.
        destruct (fs !! filepath) as [[]|]; try destruct (os_path.isdir _ _);
          now inversion Eopen. }
      cbn. constructor; [reflexivity|]. apply Forall_app. split; [exact Hg|].
      repeat constructor. }
  apply open_wb_inv in Eopen as [-> ->].
  pose proof (stream_to_file_download_events url filepath (broken resp) (chunks resp)
                0 (<[filepath := File []]> fs)) as Hs.
  destruct (stream_to_file _ _ _ _ _ _) as [[[r|e] fs2] ev2]; cbn [snd] in Hs |- *;
    (constructor; [reflexivity|]); apply Forall_app; (split; [exact Hg|]);
    cbn [app]; rewrite ?app_nil_r; repeat (constructor; [reflexivity|]);
    try exact Hs.
  apply Forall_app. split; [exact Hs | repeat constructor].
Qed.

Lemma download_with_ytdlp_download_events url dest_dir fs :
  Forall (fun e => download_event e = true) (download_with_ytdlp url dest_dir fs).2.
Proof.
  destruct (download_with_ytdlp_shape url dest_dir fs) as (r & fs' & evs & Hrun & _).
  revert Hrun.
  unfold download_with_ytdlp, try_except, bind, emit, lift, ret, with_fs, ydl_extract_info.
  destruct (YoutubeDL_init (ydl_opts dest_dir)) as [[]|e]; [|intros _; repeat constructor].
  destruct (extract_info (ydl_opts dest_dir) url fs) as [fs1 [[info|]|e]];
    [|intros _; repeat constructor..].
  destruct (prepare_filename (ydl_opts dest_dir) info) as [filepath|e];
    [|intros _; repeat constructor].
  destruct (os_path.exists_ fs1 _); intros _; repeat constructor.
Qed.

Lemma download_video_download_events url dest_dir fs :
  Forall (fun e => download_event e = true) (download_video url dest_dir fs).2.
Proof.
  unfold download_video.
  set (k := (path <- download_with_ytdlp url dest_dir ;;
             match path with
             | Some (_ :: _) => ret path
             | _ => download_direct url dest_dir
             end)).
  assert (Hrest : ∀ fs1, Forall (fun e => download_event e = true) (k fs1).2).
  { intros fs1. subst k. unfold bind.
    pose proof (download_with_ytdlp_download_events url dest_dir fs1) as Hy.
    destruct (download_with_ytdlp url dest_dir fs1) as [[[r|e] fs2] ev2];
      cbn [snd] in Hy |- *; [|exact Hy].
    pose proof (download_direct_download_events url dest_dir fs2) as Hd.
    destruct r as [[|c p]|]; unfold ret;
      try (destruct (download_direct url dest_dir fs2) as [[r3 fs3] ev3];
           cbn [snd] in Hd |- *; apply Forall_app; split; assumption).
    cbn [snd]. now rewrite app_nil_r. }
  unfold bind at 1. unfold emit at 1. unfold bind at 1. unfold os_makedirs at 1.
  destruct (fs !! dest_dir) as [[content|]|].
  - repeat constructor.
  - specialize (Hrest fs). destruct (k fs) as [[r' fs'] evs'].
    cbn [snd app] in *. repeat (constructor; [reflexivity|]). exact Hrest.
  - specialize (Hrest (<[dest_dir := Dir]> fs)).
    destruct (k (<[dest_dir := Dir]> fs)) as [[r' fs'] evs'].
    cbn [snd app] in *. repeat (constructor; [reflexivity|]). exact Hrest.
Qed.

(** X1. Whatever its surroundings do, [download_video] never addresses the
    chat platform and never creates a temporary directory or removes a
    directory tree. *)
Theorem download_video_leaves_platform_and_workspace url dest_dir fs e :
  e ∈ (download_video url dest_dir fs).2 →
  match e with
  | Discord _ | Mkdtemp _ | Rmtree _ => False
  | _ => True
  end.
Proof.
  intros He.
  pose proof (download_video_download_events url dest_dir fs) as Hev.
  rewrite Forall_forall in Hev. specialize (Hev e He).
  destruct e; try exact I; discriminate.
Qed.

End DownloadEvents.

(** ** The replies of the handler *)

Section Replies.

Context `{env : Env}.

Variable resolver : str -> str -> M (option str).

(** The outcome of a call to the chat platform. *)
Lemma discord_run c fs :
  discord c fs
  = (if discord_ok c then Ret tt else Raise DiscordException, fs, [Discord c]).
Proof. unfold discord. now destruct (discord_ok c). Qed.

Lemma respond_none url tmp_dir fs fs2 ev2 :
  resolver url tmp_dir fs = (Ret None, fs2, ev2) →
  respond resolver url tmp_dir fs
  = (if discord_ok (FollowupSend CouldNotDownload) then Ret tt
     else Raise DiscordException,
     fs2, ev2 ++ [Discord (FollowupSend CouldNotDownload)]).
Proof.
  intros Hres. unfold respond, bind. now rewrite Hres, discord_run.
Qed.

Lemma respond_file url tmp_dir fs filepath content fs2 ev2 :
  resolver url tmp_dir fs = (Ret (Some filepath), fs2, ev2) →
  fs2 !! filepath = Some (File content) →
  respond resolver url tmp_dir fs
  = let reply :=
      if MAX_FILE_SIZE_BYTES <? len content then TooLarge (len content)
      else if len content =? 0 then EmptyFile
      else HereIsYourVideo url (os_path.basename filepath) content in
    (if discord_ok (FollowupSend reply) then Ret tt else Raise DiscordException,
     fs2, ev2 ++ [Discord (FollowupSend reply)]).
Proof.
  intros Hres Hfile. unfold respond. unfold bind at 1. rewrite Hres.
  unfold bind at 1. unfold os_path_getsize at 1. rewrite Hfile. cbv zeta.
  destruct (MAX_FILE_SIZE_BYTES <? len content); [now rewrite discord_run|].
  destruct (len content =? 0); [now rewrite discord_run|].
  unfold bind, discord_File. now rewrite Hfile, discord_run.
Qed.

(** X2. When the resolver reports no result, the handler answers that the
    video could not be downloaded, hands over no file and removes the
    workspace. *)
Theorem download_command_reports_no_result url fs fs2 ev2 :
  _is_valid_url url = true →
  discord_ok (Defer true) = true →
  fs !! mkdtemp_name (workspace_parent fs) = None →
  let tmp_dir := mkdtemp_name (workspace_parent fs) in
  resolver url tmp_dir (<[tmp_dir := Dir]> fs) = (Ret None, fs2, ev2) →
  download_command_with resolver url fs
  = (if discord_ok (FollowupSend CouldNotDownload) then Ret tt
     else Raise DiscordException,
     filter (fun kv : str * node => ¬ path_under tmp_dir kv.1) fs2,
     Discord (Defer true) :: Mkdtemp tmp_dir
       :: ev2 ++ [Discord (FollowupSend CouldNotDownload); Rmtree tmp_dir]).
Proof.
  intros Hvalid Hdefer Hfree tmp_dir Hres.
  rewrite (download_command_with_run resolver url fs Hvalid Hdefer Hfree).
  cbv zeta. fold tmp_dir. rewrite (respond_none _ _ _ _ _ Hres).
  now rewrite <- app_assoc.
Qed.

(** X3. When the resolver hands back a file larger than the ceiling, the
    handler answers with the size and the limit, hands over no file and
    removes the workspace. *)
Theorem download_command_refuses_oversized_file url fs filepath content fs2 ev2 :
  _is_valid_url url = true →
  discord_ok (Defer true) = true →
  fs !! mkdtemp_name (workspace_parent fs) = None →
  let tmp_dir := mkdtemp_name (workspace_parent fs) in
  resolver url tmp_dir (<[tmp_dir := Dir]> fs) = (Ret (Some filepath), fs2, ev2) →
  fs2 !! filepath = Some (File content) →
  MAX_FILE_SIZE_BYTES < len content →
  download_command_with resolver url fs
  = (if discord_ok (FollowupSend (TooLarge (len content))) then Ret tt
     else Raise DiscordException,
     filter (fun kv : str * node => ¬ path_under tmp_dir kv.1) fs2,
     Discord (Defer true) :: Mkdtemp tmp_dir
       :: ev2 ++ [Discord (FollowupSend (TooLarge (len content))); Rmtree tmp_dir]).
Proof.
  intros Hvalid Hdefer Hfree tmp_dir Hres Hfile Hbig.
  rewrite (download_command_with_run resolver url fs Hvalid Hdefer Hfree).
  cbv zeta. fold tmp_dir. rewrite (respond_file _ _ _ _ _ _ _ Hres Hfile). cbv zeta.
  apply Z.ltb_lt in Hbig. rewrite Hbig. now rewrite <- app_assoc.
Qed.

(** X4. When the resolver hands back a file that is not empty and within
    the ceiling, the handler sends exactly the bytes that are on disk, under
    the base name of the path, and then removes the workspace. *)
Theorem download_command_delivers_file url fs filepath content fs2 ev2 :
  _is_valid_url url = true →
  discord_ok (Defer true) = true →
  fs !! mkdtemp_name (workspace_parent fs) = None →
  let tmp_dir := mkdtemp_name (workspace_parent fs) in
  resolver url tmp_dir (<[tmp_dir := Dir]> fs) = (Ret (Some filepath), fs2, ev2) →
  fs2 !! filepath = Some (File content) →
  0 < len content ≤ MAX_FILE_SIZE_BYTES →
  let reply := HereIsYourVideo url (os_path.basename filepath) content in
  download_command_with resolver url fs
  = (if discord_ok (FollowupSend reply) then Ret tt else Raise DiscordException,
     filter (fun kv : str * node => ¬ path_under tmp_dir kv.1) fs2,
     Discord (Defer true) :: Mkdtemp tmp_dir
       :: ev2 ++ [Discord (FollowupSend reply); Rmtree tmp_dir]).
Proof.
  intros Hvalid Hdefer Hfree tmp_dir Hres Hfile [Hpos Hle] reply.
  rewrite (download_command_with_run resolver url fs Hvalid Hdefer Hfree).
  cbv zeta. fold tmp_dir. rewrite (respond_file _ _ _ _ _ _ _ Hres Hfile). cbv zeta.
  assert ((MAX_FILE_SIZE_BYTES <? len content) = false) as -> by (apply Z.ltb_ge; lia).
  assert ((len content =? 0) = false) as -> by (apply Z.eqb_neq; lia).
  fold reply. now rewrite <- app_assoc.
Qed.

End Replies.

Section Deliveries.

Context `{env : Env}.

Lemma respond_deliveries resolver url tmp_dir fs e content :
  e ∈ (respond resolver url tmp_dir fs).2 →
  delivered_content e = Some content →
  e ∈ (resolver url tmp_dir fs).2 ∨ 0 < len content ≤ MAX_FILE_SIZE_BYTES.
Proof.
  unfold respond. unfold bind at 1.
  destruct (resolver url tmp_dir fs) as [[[[filepath|]|exc] fs2] ev2]; cbn [snd].
  - unfold bind at 1. unfold os_path_getsize at 1.
    destruct (fs2 !! filepath) as [[data|]|] eqn:Hfile.
    + destruct (MAX_FILE_SIZE_BYTES <? len data) eqn:Hbig.
      { rewrite discord_run. cbn [snd app]. rewrite elem_of_app, list_elem_of_singleton.
        intros [He | ->]; [now left | discriminate]. }
      destruct (len data =? 0) eqn:Hzero.
      { rewrite discord_run. cbn [snd app]. rewrite elem_of_app, list_elem_of_singleton.
        intros [He | ->]; [now left | discriminate]. }
      unfold bind, discord_File. rewrite Hfile, discord_run. cbn [snd app].
      rewrite elem_of_app, list_elem_of_singleton.
      intros [He | ->]; [now left|]. cbn. intros [= <-]. right.
      apply Z.ltb_ge in Hbig. apply Z.eqb_neq in Hzero. unfold len in *. lia.
    + destruct (MAX_FILE_SIZE_BYTES <? dir_st_size filepath).
      { rewrite discord_run. cbn [snd app]. rewrite elem_of_app, list_elem_of_singleton.
        intros [He | ->]; [now left | discriminate]. }
      destruct (dir_st_size filepath =? 0).
      { rewrite discord_run. cbn [snd app]. rewrite elem_of_app, list_elem_of_singleton.
        intros [He | ->]; [now left | discriminate]. }
      unfold bind, discord_File. rewrite Hfile. cbn [snd app].
      rewrite !app_nil_r. now left.
    + cbn [snd app]. rewrite app_nil_r. now left.
  - rewrite discord_run. cbn [snd app]. rewrite elem_of_app, list_elem_of_singleton.
    intros [He | ->]; [now left | discriminate].
  - now left.
Qed.

Lemma download_command_with_deliveries resolver url fs e content :
  e ∈ (download_command_with resolver url fs).2 →
  delivered_content e = Some content →
  (∃ tmp_dir fs1, e ∈ (resolver url tmp_dir fs1).2)
  ∨ 0 < len content ≤ MAX_FILE_SIZE_BYTES.
Proof.
  unfold download_command_with.
  destruct (_is_valid_url url); cbn [negb].
  2:{ rewrite discord_run. cbn [snd]. rewrite list_elem_of_singleton.
      intros ->. discriminate. }
  unfold bind at 1. rewrite discord_run.
  destruct (discord_ok (Defer true)).
  2:{ cbn [snd]. rewrite list_elem_of_singleton. intros ->. discriminate. }
  unfold bind at 1. unfold with_fs at 1.
  unfold bind at 1. unfold tempfile_mkdtemp at 1.
  set (tmp_dir := mkdtemp_name (workspace_parent fs)).
  destruct (fs !! tmp_dir).
  { cbn [snd app]. rewrite list_elem_of_singleton. intros ->. discriminate. }
  unfold try_finally, shutil_rmtree.
  pose proof (respond_deliveries resolver url tmp_dir (<[tmp_dir := Dir]> fs) e content)
    as Hbody.
  destruct (respond resolver url tmp_dir (<[tmp_dir := Dir]> fs)) as [[r fs2] ev2].
  cbn [snd app] in Hbody |- *.
  rewrite !elem_of_cons, elem_of_app, list_elem_of_singleton.
  intros [-> | [-> | [He | ->]]] Hdel; try discriminate.
  destruct (Hbody He Hdel) as [Hres | Hbounds]; [left; eauto | now right].
Qed.

(** X5. Every file that [download_command] hands to the requester is not
    empty and not larger than the ceiling, whatever the extractor, the HTTP
    client and the platform do. *)
Theorem download_command_delivers_within_bounds url fs e content :
  e ∈ (download_command url fs).2 →
  delivered_content e = Some content →
  0 < len content ≤ MAX_FILE_SIZE_BYTES.
Proof.
  intros He Hdel.
  destruct (download_command_with_deliveries download_video url fs e content He Hdel)
    as [(tmp_dir & fs1 & Hin) | Hbounds]; [|exact Hbounds].
  pose proof (download_video_download_events url tmp_dir fs1) as Hev.
  rewrite Forall_forall in Hev. specialize (Hev e Hin).
  destruct e as [| | | | | | | | | | | |c]; try discriminate.
Qed.

End Deliveries.

(** A page behind a failing network: the first thing [download_video] does
    is enter, which is no call to the platform. *)
Lemma download_video_entry_is_no_platform_call :
  let env := sample_env 100 (Raise RequestException) (Raise RequestException) in
  let url := lit "https://example.com/page" in
  let e := Call Fn_download_video url sample_dir in
  e ∈ (download_video url sample_dir sample_fs).2
  ∧ match e with
    | Discord _ | Mkdtemp _ | Rmtree _ => False
    | _ => True
    end.
Proof.
  intros env url e.
  assert (Hin : e ∈ (download_video url sample_dir sample_fs).2)
    by (apply (list_elem_of_lookup_2 _ 0%nat); vm_refl).
  split; [exact Hin|].
  exact (download_video_leaves_platform_and_workspace url sample_dir sample_fs e Hin).
Defined.

(** A page behind a failing network: neither strategy finds a video. *)
Lemma download_command_on_a_page :
  let env := sample_env 100 (Raise RequestException) (Raise RequestException) in
  let url := lit "https://example.com/page" in
  let tmp_dir := mkdtemp_name (workspace_parent ∅) in
  let resolution := download_video url tmp_dir (<[tmp_dir := Dir]> ∅) in
  resolution.1.1 = Ret None
  ∧ download_command_with download_video url ∅
    = (if discord_ok (FollowupSend CouldNotDownload) then Ret tt
       else Raise DiscordException,
       filter (fun kv : str * node => ¬ path_under tmp_dir kv.1) resolution.1.2,
       Discord (Defer true) :: Mkdtemp tmp_dir
         :: resolution.2 ++ [Discord (FollowupSend CouldNotDownload); Rmtree tmp_dir]).
Proof.
  intros env url tmp_dir resolution. split; [vm_refl|].
  apply (download_command_reports_no_result download_video url ∅).
  - vm_refl.
  - reflexivity.
  - vm_refl.
  - vm_refl.
Defined.

(** The extractor hands back 101 bytes under a ceiling of 100. *)
Lemma download_command_on_101_extracted_bytes :
  let content := repeat x00 101 in
  let env := sample_env_extracting 100 content in
  let url := lit "https://example.com/watch" in
  let tmp_dir := mkdtemp_name (workspace_parent ∅) in
  let resolution := download_video url tmp_dir (<[tmp_dir := Dir]> ∅) in
  resolution.1.1 = Ret (Some (lit "/tmp/tmpk3v9x_2a/My Video.mp4"))
  ∧ download_command_with download_video url ∅
    = (if discord_ok (FollowupSend (TooLarge (len content))) then Ret tt
       else Raise DiscordException,
       filter (fun kv : str * node => ¬ path_under tmp_dir kv.1) resolution.1.2,
       Discord (Defer true) :: Mkdtemp tmp_dir
         :: resolution.2
         ++ [Discord (FollowupSend (TooLarge (len content))); Rmtree tmp_dir]).
Proof.
  intros content env url tmp_dir resolution. split; [vm_refl|].
  apply (download_command_refuses_oversized_file download_video url ∅
           (lit "/tmp/tmpk3v9x_2a/My Video.mp4")).
  - vm_refl.
  - reflexivity.
  - vm_refl.
  - vm_refl.
  - vm_refl.
  - vm_compute. reflexivity.
Defined.

(** The extractor hands back 42 bytes under a ceiling of 100. *)
Lemma download_command_on_42_extracted_bytes :
  let content := repeat x00 42 in
  let env := sample_env_extracting 100 content in
  let url := lit "https://example.com/watch" in
  let tmp_dir := mkdtemp_name (workspace_parent ∅) in
  let resolution := download_video url tmp_dir (<[tmp_dir := Dir]> ∅) in
  let reply := HereIsYourVideo url (lit "My Video.mp4") content in
  os_path.basename (lit "/tmp/tmpk3v9x_2a/My Video.mp4") = lit "My Video.mp4"
  ∧ download_command_with download_video url ∅
    = (if discord_ok (FollowupSend reply) then Ret tt else Raise DiscordException,
       filter (fun kv : str * node => ¬ path_under tmp_dir kv.1) resolution.1.2,
       Discord (Defer true) :: Mkdtemp tmp_dir
         :: resolution.2 ++ [Discord (FollowupSend reply); Rmtree tmp_dir]).
Proof.
  intros content env url tmp_dir resolution reply.
  split; [vm_refl|].
  apply (download_command_delivers_file download_video url ∅
           (lit "/tmp/tmpk3v9x_2a/My Video.mp4") content).
  - vm_refl.
  - reflexivity.
  - vm_refl.
  - vm_refl.
  - vm_refl.
  - vm_compute. split; [reflexivity | discriminate].
Defined.

Lemma download_command_delivery_of_42_bytes_is_within_bounds :
  let content := repeat x00 42 in
  let env := sample_env_extracting 100 content in
  let url := lit "https://example.com/watch" in
  let e := Discord (FollowupSend (HereIsYourVideo url (lit "My Video.mp4") content)) in
  (download_command url ∅).2 !! 7%nat = Some e
  ∧ 0 < len content ≤ MAX_FILE_SIZE_BYTES.
Proof.
  intros content env url e.
  assert (Hat : (download_command url ∅).2 !! 7%nat = Some e)
    by (vm_refl).
  split; [exact Hat|].
  apply (download_command_delivers_within_bounds url ∅ e content).
  - exact (list_elem_of_lookup_2 _ _ _ Hat).
  - reflexivity.
Defined.

(** ** More on the direct fetch *)

Lemma overflows_within ceiling chunks : ∀ size,
  size + total_len chunks ≤ ceiling → overflows ceiling size chunks = false.
Proof.
  induction chunks as [|c rest IH]; intros size; [reflexivity|].
  rewrite total_len_cons. intros Hle. cbn [overflows].
  pose proof (total_len_nonneg rest).
  rewrite IH by lia. rewrite orb_false_r. apply Z.ltb_ge. lia.
Qed.

Section DirectOutcomes.

Context `{env : Env}.

(** X6. Neither strategy ever raises: whatever the extractor, the HTTP
    client, the stream and the file system do, [download_with_ytdlp] and
    [download_direct] return a path or [None]. *)
Theorem strategies_never_raise url dest_dir fs :
  (∃ r, (download_with_ytdlp url dest_dir fs).1.1 = Ret r)
  ∧ (∃ r, (download_direct url dest_dir fs).1.1 = Ret r).
Proof.
  split.
  - destruct (download_with_ytdlp_shape url dest_dir fs) as (r & fs' & evs & -> & _).
    now exists r.
  - destruct (download_direct_shape url dest_dir fs) as (r & fs' & evs & -> & _).
    now exists r.
Qed.

(** X7. When the GET raises, or is answered with a status from 400 to 599,
    [download_direct] logs the failure once and returns [None]; it opens no
    file and leaves the file system as it was. *)
Theorem download_direct_failed_request url dest_dir fs exc :
  (looks_like_video url fs).1.1 = Ret true →
  requests_get url = Raise exc
  ∨ (∃ resp, requests_get url = Ret resp
             ∧ 400 ≤ status_code resp < 600 ∧ exc = HTTPError) →
  download_direct url dest_dir fs
  = (Ret None, fs,
     Call Fn_download_direct url dest_dir
       :: (looks_like_video url fs).2
       ++ [Get url true 30; Warning (DirectFailed url exc)]).
Proof.
  intros Hguard Hfail.
  unfold download_direct.
  destruct (looks_like_video_run url fs) as [b Hb].
  rewrite Hb in Hguard |- *. cbn [fst snd] in Hguard. injection Hguard as ->.
  unfold bind at 1. unfold emit at 1. unfold bind at 1. rewrite Hb. cbn [negb snd].
  unfold try_except, bind, emit, lift, raise_for_status, raise, ret.
  destruct Hfail as [-> | (resp & -> & Hstatus & ->)]; [reflexivity|].
  assert ((400 <=? status_code resp) && (status_code resp <? 600) = true) as ->.
  { apply andb_true_iff. rewrite Z.leb_le, Z.ltb_lt. lia. }
  reflexivity.
Qed.

(** X8. When the stream runs to its end within the ceiling,
    [download_direct] returns the path of a file that holds exactly the
    bytes of the stream, written chunk by chunk in order, and changes nothing
    else in the file system. *)
Theorem download_direct_saves_stream url dest_dir fs resp filepath :
  (looks_like_video url fs).1.1 = Ret true →
  requests_get url = Ret resp →
  ¬ (400 ≤ status_code resp < 600) →
  direct_filepath url dest_dir resp = Ret filepath →
  fs !! filepath ≠ Some Dir →
  os_path.isdir fs (os_path.dirname filepath) = true →
  broken resp = false →
  total_len (chunks resp) ≤ MAX_FILE_SIZE_BYTES →
  download_direct url dest_dir fs
  = (Ret (Some filepath),
     <[filepath := File (concat (chunks resp))]> fs,
     Call Fn_download_direct url dest_dir
       :: (looks_like_video url fs).2
       ++ [Get url true 30; OpenWb filepath]
       ++ (Write filepath <$> chunks resp)).
Proof.
  intros Hguard Hget Hstatus Hpath Hnd Hparent Hbroken Hfits.
  rewrite (download_direct_streaming _ _ _ _ _ Hguard Hget Hstatus Hpath Hnd Hparent).
  rewrite (stream_to_file_run url filepath (broken resp) (chunks resp) 0 [])
    by apply lookup_insert_eq.
  rewrite overflows_within by lia. rewrite Hbroken, insert_insert_eq, app_nil_r.
  reflexivity.
Qed.

(** X9. When the stream raises after chunks that fit within the ceiling,
    [download_direct] logs the failure and returns [None], but does not
    remove the file: the bytes received so far stay on disk. *)
Theorem download_direct_keeps_partial_file url dest_dir fs resp filepath :
  (looks_like_video url fs).1.1 = Ret true →
  requests_get url = Ret resp →
  ¬ (400 ≤ status_code resp < 600) →
  direct_filepath url dest_dir resp = Ret filepath →
  fs !! filepath ≠ Some Dir →
  os_path.isdir fs (os_path.dirname filepath) = true →
  broken resp = true →
  total_len (chunks resp) ≤ MAX_FILE_SIZE_BYTES →
  download_direct url dest_dir fs
  = (Ret None,
     <[filepath := File (concat (chunks resp))]> fs,
     Call Fn_download_direct url dest_dir
       :: (looks_like_video url fs).2
       ++ [Get url true 30; OpenWb filepath]
       ++ (Write filepath <$> chunks resp)
       ++ [Warning (DirectFailed url RequestException)])
  ∧ <[filepath := File (concat (chunks resp))]> fs !! filepath
    = Some (File (concat (chunks resp))).
Proof.
  intros Hguard Hget Hstatus Hpath Hnd Hparent Hbroken Hfits.
  split; [|apply lookup_insert_eq].
  rewrite (download_direct_streaming _ _ _ _ _ Hguard Hget Hstatus Hpath Hnd Hparent).
  rewrite (stream_to_file_run url filepath (broken resp) (chunks resp) 0 [])
    by apply lookup_insert_eq.
  rewrite overflows_within by lia. rewrite Hbroken, insert_insert_eq.
  reflexivity.
Qed.

End DirectOutcomes.

(** The GET of [clip.mp4] is answered with status 404. *)
Lemma download_direct_on_404 :
  let resp := response 404 (lit "text/html") [] in
  let env := sample_env 100 (Raise RequestException) (Ret resp) in
  let url := lit "https://example.com/clip.mp4" in
  download_direct url sample_dir sample_fs
  = (Ret None, sample_fs,
     Call Fn_download_direct url sample_dir
       :: (looks_like_video url sample_fs).2
       ++ [Get url true 30; Warning (DirectFailed url HTTPError)]).
Proof.
  intros resp env url.
  apply (download_direct_failed_request url sample_dir sample_fs HTTPError).
  - vm_refl.
  - right. exists resp. split; [reflexivity|]. split; [cbn; lia | reflexivity].
Defined.

(** Two chunks, 42 bytes in all, under a ceiling of 100. *)
Lemma download_direct_saves_42_bytes :
  let body := [repeat x00 20; repeat x01 22] in
  let resp := response 200 (lit "video/mp4") body in
  let env := sample_env 100 (Raise RequestException) (Ret resp) in
  let url := lit "https://example.com/clip.mp4" in
  let filepath := lit "/tmp/tmpk3v9x_2a/video_9f1c2e7a.mp4" in
  download_direct url sample_dir sample_fs
  = (Ret (Some filepath),
     <[filepath := File (concat body)]> sample_fs,
     Call Fn_download_direct url sample_dir
       :: (looks_like_video url sample_fs).2
       ++ [Get url true 30; OpenWb filepath]
       ++ (Write filepath <$> body)).
Proof.
  intros body resp env url filepath.
  apply (download_direct_saves_stream url sample_dir sample_fs resp filepath).
  - vm_refl.
  - reflexivity.
  - cbn. lia.
  - vm_refl.
  - vm_compute. discriminate.
  - vm_refl.
  - reflexivity.
  - vm_compute. discriminate.
Defined.

(** The same two chunks, after which the connection breaks. *)
Lemma download_direct_keeps_42_bytes :
  let body := [repeat x00 20; repeat x01 22] in
  let resp := broken_response 200 (lit "video/mp4") body in
  let env := sample_env 100 (Raise RequestException) (Ret resp) in
  let url := lit "https://example.com/clip.mp4" in
  let filepath := lit "/tmp/tmpk3v9x_2a/video_9f1c2e7a.mp4" in
  (download_direct url sample_dir sample_fs).1.1 = Ret None
  ∧ (download_direct url sample_dir sample_fs).1.2 !! filepath
    = Some (File (concat body)).
Proof.
  intros body resp env url filepath.
  destruct (download_direct_keeps_partial_file url sample_dir sample_fs resp filepath)
    as [Hrun Hfile].
  - vm_refl.
  - reflexivity.
  - cbn. lia.
  - vm_refl.
  - vm_compute. discriminate.
  - vm_refl.
  - reflexivity.
  - vm_compute. discriminate.
  - rewrite Hrun. split; [reflexivity | exact Hfile].
Defined.

(** ** More on the extractor strategy *)

Section ExtractorOutcomes.

Context `{env : Env}.

(** The run once the extractor has been constructed and has produced an
    info dictionary and a file name. *)
Lemma download_with_ytdlp_prepared url dest_dir fs fs1 info prepared :
  YoutubeDL_init (ydl_opts dest_dir) = Ret tt →
  extract_info (ydl_opts dest_dir) url fs = (fs1, Ret (Some info)) →
  prepare_filename (ydl_opts dest_dir) info = Ret prepared →
  download_with_ytdlp url dest_dir fs
  = (Ret (if os_path.exists_ fs1 prepared then Some prepared
          else if os_path.exists_ fs1 ((os_path.splitext prepared).1 ++ lit ".mp4")
               then Some ((os_path.splitext prepared).1 ++ lit ".mp4")
               else None),
     fs1,
     [Call Fn_download_with_ytdlp url dest_dir; YoutubeDL (ydl_opts dest_dir);
      ExtractInfo url true]).
Proof.
  intros Hinit Hinfo Hprep.
  unfold download_with_ytdlp, try_except, bind, emit, lift, ret, with_fs, ydl_extract_info.
  rewrite Hinit, Hinfo, Hprep.
  destruct (os_path.exists_ fs1 prepared) eqn:E1; cbn [negb].
  - rewrite E1. reflexivity.
  - destruct (os_path.exists_ fs1 ((os_path.splitext prepared).1 ++ lit ".mp4"));
      reflexivity.
Qed.

(** X10. After a successful extraction, [download_with_ytdlp] returns the
    prepared file name if it exists; otherwise the same name with its
    extension replaced by [.mp4] if that exists; otherwise [None], without
    logging anything.  It changes the file system only through the
    extractor. *)
Theorem download_with_ytdlp_checks_output url dest_dir fs fs1 info prepared :
  YoutubeDL_init (ydl_opts dest_dir) = Ret tt →
  extract_info (ydl_opts dest_dir) url fs = (fs1, Ret (Some info)) →
  prepare_filename (ydl_opts dest_dir) info = Ret prepared →
  let merged := (os_path.splitext prepared).1 ++ lit ".mp4" in
  ∃ r,
    download_with_ytdlp url dest_dir fs
    = (Ret r, fs1,
       [Call Fn_download_with_ytdlp url dest_dir; YoutubeDL (ydl_opts dest_dir);
        ExtractInfo url true])
    ∧ (os_path.exists_ fs1 prepared = true → r = Some prepared)
    ∧ (os_path.exists_ fs1 prepared = false → os_path.exists_ fs1 merged = true →
       r = Some merged)
    ∧ (os_path.exists_ fs1 prepared = false → os_path.exists_ fs1 merged = false →
       r = None).
Proof.
  intros Hinit Hinfo Hprep merged.
  rewrite (download_with_ytdlp_prepared _ _ _ _ _ _ Hinit Hinfo Hprep). fold merged.
  eexists. split; [reflexivity|].
  destruct (os_path.exists_ fs1 prepared), (os_path.exists_ fs1 merged);
    repeat split; intros; congruence.
Qed.

(** X11. A path that [download_with_ytdlp] returns exists in the file
    system the run leaves behind, and the run that returns it logs no
    warning. *)
Theorem download_with_ytdlp_returns_existing_path url dest_dir fs filepath fs' evs :
  download_with_ytdlp url dest_dir fs = (Ret (Some filepath), fs', evs) →
  os_path.exists_ fs' filepath = true
  ∧ evs = [Call Fn_download_with_ytdlp url dest_dir; YoutubeDL (ydl_opts dest_dir);
           ExtractInfo url true].
Proof.
  unfold download_with_ytdlp, try_except, bind, emit, lift, ret, with_fs, ydl_extract_info.
  destruct (YoutubeDL_init (ydl_opts dest_dir)) as [[]|e];
    [|cbv beta iota zeta; discriminate].
  destruct (extract_info (ydl_opts dest_dir) url fs) as [fs1 [[info|]|e]];
    [|cbv beta iota zeta; discriminate..].
  destruct (prepare_filename (ydl_opts dest_dir) info) as [prepared|e];
    [|cbv beta iota zeta; discriminate].
  destruct (os_path.exists_ fs1 prepared) eqn:E1; cbn [negb].
  - rewrite E1. cbv beta iota zeta. intros [= <- <- <-]. auto.
  - destruct (os_path.exists_ fs1 ((os_path.splitext prepared).1 ++ lit ".mp4")) eqn:E2;
      cbv beta iota zeta; [|discriminate].
    intros [= <- <- <-]. auto.
Qed.

(** X12. When the construction of the extractor, the extraction or the
    preparation of the file name raises, [download_with_ytdlp] logs that
    exception in one warning, as the last thing it does, and returns
    [None]. *)
Theorem download_with_ytdlp_logs_failure url dest_dir fs exc :
  let opts := ydl_opts dest_dir in
  YoutubeDL_init opts = Raise exc
  ∨ (YoutubeDL_init opts = Ret tt ∧ (extract_info opts url fs).2 = Raise exc)
  ∨ (YoutubeDL_init opts = Ret tt
     ∧ ∃ info, (extract_info opts url fs).2 = Ret (Some info)
               ∧ prepare_filename opts info = Raise exc) →
  ∃ fs' evs,
    download_with_ytdlp url dest_dir fs
    = (Ret None, fs', evs ++ [Warning (YtdlpFailed url exc)])
    ∧ Forall (fun e => match e with Warning _ => False | _ => True end) evs.
Proof.
  intros opts Hfail. subst opts.
  unfold download_with_ytdlp, try_except, bind, emit, lift, ret, with_fs, ydl_extract_info.
  destruct Hfail as [-> | [[-> Hraise] | [-> (info & Hinfo & Hprep)]]].
  - exists fs, [Call Fn_download_with_ytdlp url dest_dir; YoutubeDL (ydl_opts dest_dir)].
    split; [reflexivity | repeat constructor].
  - destruct (extract_info (ydl_opts dest_dir) url fs) as [fs1 r]. cbn [snd] in Hraise.
    subst r.
    exists fs1, [Call Fn_download_with_ytdlp url dest_dir; YoutubeDL (ydl_opts dest_dir);
                 ExtractInfo url true].
    split; [reflexivity | repeat constructor].
  - destruct (extract_info (ydl_opts dest_dir) url fs) as [fs1 r]. cbn [snd] in Hinfo.
    subst r. rewrite Hprep.
    exists fs1, [Call Fn_download_with_ytdlp url dest_dir; YoutubeDL (ydl_opts dest_dir);
                 ExtractInfo url true].
    split; [reflexivity | repeat constructor].
Qed.

End ExtractorOutcomes.

(** The extractor has merged into [My Video.mp4]; the prepared name still
    ends in [.webm]. *)
Lemma download_with_ytdlp_finds_merged_file :
  let env := sample_env_merging 100 (repeat x00 42) in
  let url := lit "https://example.com/watch" in
  let prepared := lit "/tmp/tmpk3v9x_2a/My Video.webm" in
  let merged := lit "/tmp/tmpk3v9x_2a/My Video.mp4" in
  (os_path.splitext prepared).1 ++ lit ".mp4" = merged
  ∧ (download_with_ytdlp url sample_dir sample_fs).1.1 = Ret (Some merged).
Proof.
  intros env url prepared merged. split; [vm_refl|].
  destruct (download_with_ytdlp_checks_output url sample_dir sample_fs
              (<[merged := File (repeat x00 42)]> sample_fs) ∅ prepared)
    as (r & Hrun & _ & Hmerged & _).
  - reflexivity.
  - vm_refl.
  - vm_refl.
  - rewrite Hrun. cbn [fst]. f_equal. apply Hmerged; vm_refl.
Defined.

(** The extractor has written [My Video.mp4] and names it. *)
Lemma download_with_ytdlp_returns_extracted_file :
  let env := sample_env_extracting 100 (repeat x00 42) in
  let url := lit "https://example.com/watch" in
  let filepath := lit "/tmp/tmpk3v9x_2a/My Video.mp4" in
  let run := download_with_ytdlp url sample_dir sample_fs in
  run.1.1 = Ret (Some filepath) ∧ os_path.exists_ run.1.2 filepath = true.
Proof.
  intros env url filepath run.
  assert (Hrun : run = (Ret (Some filepath), run.1.2, run.2)) by vm_refl.
  split; [vm_refl|].
  exact (proj1 (download_with_ytdlp_returns_existing_path
                  url sample_dir sample_fs filepath run.1.2 run.2 Hrun)).
Defined.

(** The extraction raises [DownloadError]. *)
Lemma download_with_ytdlp_logs_download_error :
  let env := sample_env 100 (Raise RequestException) (Raise RequestException) in
  let url := lit "https://example.com/watch" in
  ∃ fs' evs,
    download_with_ytdlp url sample_dir sample_fs
    = (Ret None, fs', evs ++ [Warning (YtdlpFailed url DownloadError)])
    ∧ Forall (fun e => match e with Warning _ => False | _ => True end) evs.
Proof.
  intros env url.
  apply (download_with_ytdlp_logs_failure url sample_dir sample_fs DownloadError).
  right. left. split; reflexivity.
Defined.

(** ** Paths *)

Lemma startswith_nil s : Py.startswith s [] = true.
Proof. now destruct s. Qed.

Lemma rfind_from_notin c s : Forall (fun x => x ≠ c) s →
  ∀ pos last, Py.rfind_from c s pos last = last.
Proof.
  induction 1 as [|x s Hx _ IH]; intros pos last; cbn [Py.rfind_from]; [reflexivity|].
  apply N.eqb_neq in Hx. now rewrite Hx, IH.
Qed.

Lemma rfind_from_last c a b : Forall (fun x => x ≠ c) b →
  ∀ pos last,
    Py.rfind_from c (a ++ c :: b) pos last = Z.of_nat (pos + length a).
Proof.
  intros Hb. induction a as [|x a IH]; intros pos last; cbn [app Py.rfind_from length].
  - rewrite N.eqb_refl, rfind_from_notin by exact Hb. f_equal. lia.
  - rewrite IH. f_equal. lia.
Qed.

Lemma rfind_from_range c s : ∀ pos last,
  Py.rfind_from c s pos last = last ∨ Z.of_nat pos ≤ Py.rfind_from c s pos last.
Proof.
  induction s as [|x s IH]; intros pos last; cbn [Py.rfind_from]; [now left|].
  destruct (x =? c)%N.
  - right. destruct (IH (S pos) (Z.of_nat pos)) as [-> | H]; lia.
  - destruct (IH (S pos) last) as [-> | H]; [now left | right; lia].
Qed.

(** No occurrence lies beyond the index that [rfind] returns. *)
Lemma rfind_from_upper c s : ∀ pos last (j : nat),
  s !! j = Some c → Z.of_nat (pos + j) ≤ Py.rfind_from c s pos last.
Proof.
  induction s as [|x s IH]; intros pos last j Hj; [discriminate|].
  cbn [Py.rfind_from]. destruct j as [|j].
  - injection Hj as ->. rewrite N.eqb_refl.
    destruct (rfind_from_range c s (S pos) (Z.of_nat pos)) as [-> | H]; lia.
  - cbn in Hj. specialize (IH (S pos) (if (x =? c)%N then Z.of_nat pos else last) j Hj).
    lia.
Qed.

Lemma rfind_range c s : -1 ≤ Py.rfind c s.
Proof.
  unfold Py.rfind. destruct (rfind_from_range c s 0 (-1)) as [-> | H]; lia.
Qed.

Lemma relative_name name :
  Forall (fun x => x ≠ 47%N) name → Py.startswith name (lit "/") = false.
Proof.
  intros Hname. destruct name as [|x name]; [reflexivity|].
  apply Forall_cons in Hname as [Hx _].
  change (lit "/") with [47%N]. cbn [Py.startswith].
  apply N.eqb_neq in Hx. rewrite N.eqb_sym in Hx. now rewrite Hx.
Qed.

Lemma basename_join d name :
  Forall (fun x => x ≠ 47%N) name → os_path.basename (os_path.join d name) = name.
Proof.
  intros Hname. unfold os_path.join.
  rewrite (relative_name name Hname).
  unfold os_path.basename, Py.slice_from, Py.rfind.
  assert (Hplain : os_path.basename name = name).
  { unfold os_path.basename, Py.slice_from, Py.rfind.
    now rewrite rfind_from_notin. }
  destruct d as [|x0 d0] eqn:Ed; cbn [orb].
  { exact Hplain. }
  rewrite <- Ed. clear Ed.
  destruct (Py.endswith d (lit "/")) eqn:Eend.
  - unfold Py.endswith in Eend.
    destruct (rev d) as [|y rd] eqn:Erev; [discriminate|].
    cbn in Eend. rewrite andb_true_iff, N.eqb_eq in Eend. destruct Eend as [<- _].
    assert (d = rev rd ++ [47%N]) as ->
      by (rewrite <- (rev_involutive d), Erev; reflexivity).
    rewrite <- app_assoc. cbn [app].
    rewrite rfind_from_last by exact Hname.
    replace (Z.to_nat (Z.of_nat (0 + length (rev rd)) + 1))
      with (length (rev rd ++ [47%N])) by (rewrite length_app; cbn; lia).
    replace (rev rd ++ 47%N :: name) with ((rev rd ++ [47%N]) ++ name)
      by now rewrite <- app_assoc.
    apply drop_app_length.
  - change (lit "/" ++ name) with (47%N :: name).
    rewrite rfind_from_last by exact Hname.
    replace (Z.to_nat (Z.of_nat (0 + length d) + 1))
      with (length (d ++ [47%N])) by (rewrite length_app; cbn; lia).
    replace (d ++ 47%N :: name) with ((d ++ [47%N]) ++ name)
      by now rewrite <- app_assoc.
    apply drop_app_length.
Qed.

Lemma dirname_join d x name :
  x ≠ 47%N →
  Forall (fun c => c ≠ 47%N) name →
  os_path.dirname (os_path.join (d ++ [x]) name) = d ++ [x].
Proof.
  intros Hx Hname. unfold os_path.join.
  rewrite (relative_name name Hname).
  assert (Py.endswith (d ++ [x]) (lit "/") = false) as ->.
  { unfold Py.endswith. rewrite rev_app_distr. change (lit "/") with [47%N].
    cbn [rev app Py.startswith].
    apply N.eqb_neq in Hx. rewrite N.eqb_sym in Hx. now rewrite Hx. }
  assert (match d ++ [x] with [] => true | _ => false end = false) as ->
    by now destruct d.
  cbn [orb]. change (lit "/" ++ name) with (47%N :: name).
  unfold os_path.dirname, Py.slice_to, Py.rfind.
  rewrite rfind_from_last by exact Hname.
  replace (Z.to_nat (Z.of_nat (0 + length (d ++ [x])) + 1))
    with (length ((d ++ [x]) ++ [47%N])) by (rewrite !length_app; cbn; lia).
  replace ((d ++ [x]) ++ 47%N :: name) with (((d ++ [x]) ++ [47%N]) ++ name)
    by now rewrite <- !app_assoc.
  rewrite take_app_length.
  apply N.eqb_neq in Hx.
  assert (forallb (N.eqb 47) ((d ++ [x]) ++ [47%N]) = false) as ->.
  { rewrite !forallb_app. cbn [forallb]. rewrite (N.eqb_sym 47 x), Hx.
    now destruct (forallb (N.eqb 47) d). }
  unfold Py.rstrip. rewrite !rev_app_distr. change (lit "/") with [47%N].
  cbn [rev app Py.lstrip char_in existsb]. rewrite N.eqb_refl. cbn [orb].
  rewrite Hx. cbn [orb rev]. now rewrite rev_involutive.
Qed.

(** The extension that [splitext] splits off holds no slash, and the two
    parts make up the path. *)
Lemma splitext_parts p :
  (os_path.splitext p).1 ++ (os_path.splitext p).2 = p
  ∧ Forall (fun c => c ≠ 47%N) (os_path.splitext p).2.
Proof.
  unfold os_path.splitext.
  destruct (Py.rfind 47 p <? Py.rfind 46 p) eqn:Ecmp; [|cbn; rewrite app_nil_r; auto].
  destruct (os_path.has_non_dot _ _ _); [|cbn; rewrite app_nil_r; auto].
  cbn [fst snd]. unfold Py.slice_to, Py.slice_from. split; [apply take_drop|].
  apply Z.ltb_lt in Ecmp. pose proof (rfind_range 47 p) as Hsep.
  apply Forall_forall. intros c Hc ->.
  apply list_elem_of_lookup in Hc as [j Hj]. rewrite lookup_drop in Hj.
  pose proof (rfind_from_upper 47 p 0 (-1) _ Hj) as Hup.
  unfold Py.rfind in *. lia.
Qed.

(** ** More on the sanitizer *)

Lemma drop_leading_head l :
  match drop_leading l with
  | [] => True
  | c :: _ => ¬ dot_or_space c
  end.
Proof.
  induction l as [|x l IH]; cbn [drop_leading]; [exact I|].
  destruct (decide (dot_or_space x)); [exact IH | assumption].
Qed.

Lemma drop_leading_suffix l : ∃ k, l = k ++ drop_leading l.
Proof.
  induction l as [|x l [k IH]]; cbn [drop_leading]; [now exists []|].
  destruct (decide (dot_or_space x)).
  - exists (x :: k). cbn. now rewrite <- IH.
  - now exists [].
Qed.

Lemma drop_leading_id l :
  (∀ c, head l = Some c → ¬ dot_or_space c) → drop_leading l = l.
Proof.
  destruct l as [|x l]; [reflexivity|]. intros H. cbn [drop_leading].
  destruct (decide (dot_or_space x)) as [Hx|]; [|reflexivity].
  now destruct (H x eq_refl).
Qed.

(** Stripping at the end leaves a prefix. *)
Lemma strip_end_prefix l : ∃ k, l = reverse (drop_leading (reverse l)) ++ k.
Proof.
  destruct (drop_leading_suffix (reverse l)) as [k Hk].
  exists (reverse k).
  rewrite <- reverse_app, <- Hk. now rewrite reverse_involutive.
Qed.

Lemma replace_forbidden_clean (name : str) (c : N) :
  c ∈ ((fun c => if decide (forbidden c) then 95%N else c) <$> name) → ¬ forbidden c.
Proof.
  intros Hc. apply list_elem_of_fmap in Hc as (x & -> & _).
  destruct (decide (forbidden x)) as [|Hx]; [|exact Hx].
  unfold forbidden. change (lit "<>:") with [60; 62; 58]%N.
  change (lit "/\|?*") with [47; 92; 124; 63; 42]%N.
  rewrite !elem_of_cons, !elem_of_nil.
  intros F; repeat destruct F as [F|F]; try discriminate; try lia; try done.
Qed.

Lemma sanitize_spec_clean (name : str) (c : N) :
  c ∈ sanitize_spec name → ¬ forbidden c.
Proof.
  unfold sanitize_spec.
  set (replaced := _ <$> name). set (cut := take 100 _).
  destruct (decide (cut = [])); [apply video_not_forbidden|].
  subst cut. intros Hc. apply elem_of_take in Hc as (i & Hi & _).
  apply list_elem_of_lookup_2 in Hi.
  apply elem_of_reverse, drop_leading_incl, elem_of_reverse, drop_leading_incl in Hi.
  exact (replace_forbidden_clean name c Hi).
Qed.

(** A sanitized name holds no slash. *)
Lemma sanitize_no_slash (name : str) : Forall (fun c => c ≠ 47%N) (_sanitize_filename name).
Proof.
  apply Forall_forall. intros c Hc ->. rewrite sanitize_refines in Hc.
  apply sanitize_spec_clean in Hc. apply Hc. unfold forbidden.
  right. right. left. change (lit "/\|?*") with [47; 92; 124; 63; 42]%N.
  apply elem_of_cons. now left.
Qed.

Lemma sanitize_spec_safe (name : str) :
  name ≠ [] →
  (∀ c, c ∈ name → ¬ forbidden c) →
  (∀ c, head name = Some c ∨ last name = Some c → ¬ dot_or_space c) →
  (length name ≤ 100)%nat →
  sanitize_spec name = name.
Proof.
  intros Hne Hclean Hends Hlen. unfold sanitize_spec.
  assert (((fun c => if decide (forbidden c) then 95%N else c) <$> name) = name) as ->.
  { clear Hne Hends Hlen. induction name as [|x name IH]; [reflexivity|].
    rewrite fmap_cons.
    rewrite IH by (intros c Hc; apply Hclean; now right).
    destruct (decide (forbidden x)) as [Hx|]; [|reflexivity].
    destruct (Hclean x); [now left | exact Hx]. }
  rewrite (drop_leading_id name) by (intros c Hc; apply Hends; now left).
  rewrite (drop_leading_id (reverse name)).
  2:{ intros c Hc. apply Hends. right. now rewrite <- head_reverse. }
  rewrite reverse_involutive, take_ge by exact Hlen.
  case_decide; [done | reflexivity].
Qed.

(** X13. A name that is not empty, holds no forbidden character, neither
    begins nor ends with a dot or a space and is at most 100 characters long
    comes back from [_sanitize_filename] unchanged. *)
Theorem sanitize_filename_fixes_safe_names (name : str) :
  name ≠ [] →
  (∀ c, c ∈ name → ¬ forbidden c) →
  (∀ c, head name = Some c ∨ last name = Some c → ¬ dot_or_space c) →
  (length name ≤ 100)%nat →
  _sanitize_filename name = name.
Proof.
  intros Hne Hclean Hends Hlen.
  rewrite sanitize_refines. now apply sanitize_spec_safe.
Qed.

(** X14. The sanitized name is never empty and never begins with a dot or
    a space. *)
Theorem sanitize_filename_starts_clean (name : str) :
  ∃ c rest, _sanitize_filename name = c :: rest ∧ ¬ dot_or_space c.
Proof.
  rewrite sanitize_refines. unfold sanitize_spec.
  set (replaced := _ <$> name).
  pose proof (drop_leading_head replaced) as Hhead.
  destruct (strip_end_prefix (drop_leading replaced)) as [k Hk].
  set (stripped := reverse (drop_leading (reverse (drop_leading replaced)))) in *.
  destruct (decide (take 100 stripped = [])) as [|Hne].
  - exists 118%N, (lit "ideo"). split; [reflexivity|].
    unfold dot_or_space. intros [|]; discriminate.
  - destruct stripped as [|c rest]; [done|].
    exists c, (take 99 rest). split; [reflexivity|].
    rewrite Hk in Hhead. exact Hhead.
Qed.

(** The name [my_video]. *)
Lemma sanitize_filename_fixes_my_video :
  _sanitize_filename (lit "my_video") = lit "my_video".
Proof.
  apply sanitize_filename_fixes_safe_names.
  - discriminate.
  - apply Forall_forall. compute_done.
  - intros c [H|H]; vm_compute in H; injection H as <-; intros [|]; discriminate.
  - vm_compute. lia.
Defined.

(** ** Where the direct fetch writes *)

Section DirectPath.

Context `{env : Env}.

Lemma direct_ext_no_slash url content_type ext :
  direct_ext url content_type = Ret ext → Forall (fun c => c ≠ 47%N) ext.
Proof.
  unfold direct_ext.
  destruct (_has_video_extension url).
  - destruct (urlparse url) as [result|e]; [|discriminate].
    intros [= <-]. apply splitext_parts.
  - destruct (Py.contains content_type (lit "webm")).
    { intros [= <-]. compute_done. }
    destruct (Py.contains content_type (lit "matroska")
              || Py.contains content_type (lit "x-matroska"));
      intros [= <-]; compute_done.
Qed.

Lemma direct_filepath_inv url dest_dir resp filepath :
  direct_filepath url dest_dir resp = Ret filepath →
  ∃ ext,
    direct_ext url (content_type_of resp) = Ret ext
    ∧ filepath
      = os_path.join dest_dir
          (_sanitize_filename (lit "video_" ++ take 8 uuid4_hex) ++ ext)
    ∧ Forall (fun c => c ≠ 47%N)
        (_sanitize_filename (lit "video_" ++ take 8 uuid4_hex) ++ ext).
Proof.
  unfold direct_filepath.
  destruct (direct_ext url (content_type_of resp)) as [ext|e] eqn:Eext; [|discriminate].
  intros [= <-]. exists ext. split; [reflexivity|]. split; [reflexivity|].
  apply Forall_app. split; [apply sanitize_no_slash|].
  exact (direct_ext_no_slash _ _ _ Eext).
Qed.

Lemma direct_filepath_dirname url dest_dir x resp filepath :
  last dest_dir = Some x →
  x ≠ 47%N →
  direct_filepath url dest_dir resp = Ret filepath →
  os_path.dirname filepath = dest_dir.
Proof.
  intros Hlast Hx Hpath.
  apply last_Some in Hlast as [d ->].
  apply direct_filepath_inv in Hpath as (ext & _ & -> & Hname).
  now apply dirname_join.
Qed.

(** X15. When the destination directory does not end with a slash, the
    file that [download_direct] writes lies directly in it: its directory
    name is the destination and its base name holds no slash. *)
Theorem direct_filepath_in_dest_dir url dest_dir x resp filepath :
  last dest_dir = Some x →
  x ≠ 47%N →
  direct_filepath url dest_dir resp = Ret filepath →
  os_path.dirname filepath = dest_dir
  ∧ os_path.join dest_dir (os_path.basename filepath) = filepath
  ∧ Forall (fun c => c ≠ 47%N) (os_path.basename filepath).
Proof.
  intros Hlast Hx Hpath.
  split; [exact (direct_filepath_dirname _ _ _ _ _ Hlast Hx Hpath)|].
  apply direct_filepath_inv in Hpath as (ext & _ & -> & Hname).
  rewrite basename_join by exact Hname. split; [reflexivity | exact Hname].
Qed.

(** X16. When the identifier is made of hexadecimal digits, the file name
    is [video_], the first eight digits and the extension: sanitizing
    changes nothing. *)
Theorem direct_filepath_name url dest_dir resp ext :
  forallb hex_digit uuid4_hex = true →
  direct_ext url (content_type_of resp) = Ret ext →
  direct_filepath url dest_dir resp
  = Ret (os_path.join dest_dir (lit "video_" ++ take 8 uuid4_hex ++ ext)).
Proof.
  intros Hhex Hext. unfold direct_filepath. rewrite Hext.
  assert (Hchars : ∀ c, c ∈ lit "video_" ++ take 8 uuid4_hex →
                        ¬ forbidden c ∧ ¬ dot_or_space c).
  { intros c Hc. apply elem_of_app in Hc as [Hc | Hc].
    - revert c Hc. apply Forall_forall. compute_done.
    - apply elem_of_take in Hc as (i & Hi & _). apply list_elem_of_lookup_2 in Hi.
      rewrite forallb_forall in Hhex. apply list_elem_of_In, Hhex in Hi.
      unfold hex_digit in Hi.
      rewrite orb_true_iff, !andb_true_iff, !N.leb_le in Hi.
      unfold forbidden, dot_or_space.
      change (lit "<>:") with [60; 62; 58]%N.
      change (lit "/\|?*") with [47; 92; 124; 63; 42]%N.
      rewrite !elem_of_cons, !elem_of_nil. lia. }
  rewrite sanitize_refines, sanitize_spec_safe, <- app_assoc; [reflexivity|..].
  - discriminate.
  - intros c Hc. now apply Hchars.
  - intros c [H|H]; apply Hchars.
    + now apply head_Some_elem_of.
    + apply last_Some in H as [l ->]. apply elem_of_app. right. now left.
  - rewrite length_app, length_take.
    change (length (lit "video_")) with 6%nat. lia.
Qed.

End DirectPath.

(** The workspace [/tmp/tmpk3v9x_2a] and a response with a WebM body. *)
Lemma direct_filepath_in_sample_dir :
  let resp := response 200 (lit "video/webm") [] in
  let env := sample_env 100 (Ret resp) (Ret resp) in
  let url := lit "https://example.com/stream" in
  let filepath := lit "/tmp/tmpk3v9x_2a/video_9f1c2e7a.webm" in
  direct_filepath url sample_dir resp = Ret filepath
  ∧ os_path.dirname filepath = sample_dir
  ∧ os_path.join sample_dir (os_path.basename filepath) = filepath
  ∧ Forall (fun c => c ≠ 47%N) (os_path.basename filepath).
Proof.
  intros resp env url filepath.
  assert (Hpath : direct_filepath url sample_dir resp = Ret filepath) by vm_refl.
  split; [exact Hpath|].
  apply (direct_filepath_in_dest_dir url sample_dir 97%N resp filepath).
  - vm_refl.
  - discriminate.
  - exact Hpath.
Defined.

Lemma direct_filepath_name_in_sample_dir :
  let resp := response 200 (lit "video/webm") [] in
  let env := sample_env 100 (Ret resp) (Ret resp) in
  let url := lit "https://example.com/stream" in
  direct_filepath url sample_dir resp
  = Ret (os_path.join sample_dir (lit "video_" ++ take 8 uuid4_hex ++ lit ".webm")).
Proof.
  intros resp env url.
  apply (direct_filepath_name url sample_dir resp (lit ".webm")).
  - vm_refl.
  - vm_refl.
Defined.

(** ** The resolver from end to end *)

Section EndToEnd.

Context `{env : Env}.





End EndToEnd.




(** ** What [_is_valid_url] accepts *)

Lemma find_from_found c s : ∀ pos i,
  Py.find_from c s 0 pos = i →
  0 ≤ i →
  (pos ≤ Z.to_nat i)%nat
  ∧ s = take (Z.to_nat i - pos) s ++ c :: drop (S (Z.to_nat i - pos)) s.
Proof.
  induction s as [|x s IH]; intros pos i; cbn [Py.find_from]; [lia|].
  cbn [Nat.leb andb]. destruct (N.eqb_spec x c) as [->|Hx].
  - intros <- _. rewrite Nat2Z.id, Nat.sub_diag. split; [lia | reflexivity].
  - intros Hi Hpos. destruct (IH (S pos) i Hi Hpos) as [Hle Hs]. split; [lia|].
    replace (Z.to_nat i - pos)%nat with (S (Z.to_nat i - S pos)) by lia.
    cbn [take drop app]. now rewrite <- Hs.
Qed.

Lemma lstrip_incl chars (s : str) (c : N) : c ∈ Py.lstrip chars s → c ∈ s.
Proof.
  induction s as [|x s IH]; cbn [Py.lstrip]; [done|].
  destruct (char_in x chars); [|done]. intros H. right. now apply IH.
Qed.

Lemma remove_unsafe_bytes_incl (s : str) (c : N) : c ∈ remove_unsafe_bytes s → c ∈ s.
Proof.
  unfold remove_unsafe_bytes, _UNSAFE_URL_BYTES_TO_REMOVE, Py.remove_char.
  cbn [fold_left]. rewrite !list_elem_of_filter. tauto.
Qed.

Lemma scheme_chars_ascii s :
  forallb (fun c => char_in c scheme_chars) s = true → Py.isascii s = true.
Proof.
  assert (Hall : forallb (fun c => (c <? 128)%N) scheme_chars = true) by vm_refl.
  rewrite forallb_forall in Hall. unfold Py.isascii. rewrite !forallb_forall.
  intros H c Hc. specialize (H c Hc). unfold char_in in H.
  apply existsb_exists in H as (x & Hx & Heq). apply N.eqb_eq in Heq as ->.
  now apply Hall.
Qed.

Section UrlShape.

Context `{env : Env}.

Lemma urlparse_components url result :
  urlparse url = Ret result →
  let u := remove_unsafe_bytes (Py.lstrip _WHATWG_C0_CONTROL_OR_SPACE url) in
  scheme result = (split_scheme u).1
  ∧ netloc result = (split_netloc (split_scheme u).2).1.1.
Proof.
  unfold urlparse, urlsplit. cbv zeta.
  destruct (split_scheme _) as [s r]. cbn [fst snd].
  destruct (split_netloc r) as [[n r2] bad].
  destruct bad; [discriminate|].
  destruct (split_once 35 r2) as [[u1 f]|];
    match goal with
    | |- context [split_once 63 ?x] => destruct (split_once 63 x) as [[u2 q]|]
    end;
    (destruct (_checknetloc n); [|discriminate]);
    match goal with
    | |- context [if ?b then _splitparams ?u else _] =>
        destruct (if b then _splitparams u else (u, [])) as [u' p']
    end;
    intros [= <-]; split; reflexivity.
Qed.

Lemma split_scheme_inv u s r :
  split_scheme u = (s, r) →
  s ≠ [] →
  ∃ sch, u = sch ++ 58%N :: r ∧ s = map Py.lower_ascii_char sch.
Proof.
  unfold split_scheme. destruct u as [|c0 t]; [now intros [= <- <-]|].
  destruct (_ && _) eqn:Hc; [|now intros [= <- <-]].
  intros [= <- <-] _. rewrite !andb_true_iff in Hc.
  destruct Hc as [[[Hpos _] _] Hchars]. apply Z.ltb_lt in Hpos.
  set (i := Py.find 58 (c0 :: t) 0) in *.
  destruct (find_from_found 58 (c0 :: t) 0 i eq_refl ltac:(lia)) as [_ Hs].
  rewrite Nat.sub_0_r in Hs.
  exists (take (Z.to_nat i) (c0 :: t)). unfold Py.slice_to, Py.slice_from in *.
  replace (Z.to_nat (i + 1)) with (S (Z.to_nat i)) by lia.
  split; [exact Hs|].
  unfold str_lower. now rewrite (scheme_chars_ascii _ Hchars).
Qed.

Lemma split_netloc_netloc r :
  (split_netloc r).1.1
  = if Py.startswith r (lit "//") then (_splitnetloc r 2).1 else [].
Proof.
  unfold split_netloc. destruct (Py.startswith r (lit "//")); [|reflexivity].
  destruct (_splitnetloc r 2) as [n r2]. cbv zeta.
  destruct (_ || _); [reflexivity|]. now destruct (_ && _).
Qed.

Lemma split_netloc_inv r :
  (split_netloc r).1.1 ≠ [] →
  ∃ c rest, r = 47%N :: 47%N :: c :: rest ∧ char_in c (lit "/?#") = false.
Proof.
  rewrite split_netloc_netloc.
  destruct (Py.startswith r (lit "//")) eqn:Hstart; [|done].
  change (lit "//") with [47; 47]%N in Hstart.
  destruct r as [|a [|b t]];
    [discriminate
    |cbn [Py.startswith] in Hstart; rewrite andb_false_r in Hstart; discriminate|].
  cbn [Py.startswith] in Hstart. rewrite !andb_true_iff, !N.eqb_eq in Hstart.
  destruct Hstart as (<- & <- & _).
  destruct t as [|c rest].
  { unfold _splitnetloc. cbn [fst]. unfold Py.slice_to.
    intros H. exfalso. apply H.
    apply nil_length_inv. rewrite length_drop, length_take. cbn [length]. lia. }
  intros Hne. exists c, rest. split; [reflexivity|].
  destruct (char_in c (lit "/?#")) eqn:Hc; [exfalso|reflexivity].
  apply Hne. unfold _splitnetloc. cbn [fst]. unfold Py.slice_to.
  apply nil_length_inv. rewrite length_drop, length_take.
  match goal with
  | |- context [Z.to_nat ?delim] => enough (Hdelim : delim ≤ 2) by lia
  end.
  change (lit "/?#") with [47; 63; 35]%N in Hc |- *.
  cbn [char_in existsb] in Hc. rewrite !orb_true_iff, !N.eqb_eq in Hc.
  cbn [fold_left]. unfold Py.find. cbn [Py.find_from Nat.leb andb].
  destruct Hc as [->|[->|[->|Hc]]]; [..|discriminate];
    cbn [N.eqb Pos.eqb];
    repeat match goal with
           | |- context [0 <=? ?w] => destruct (Z.leb_spec 0 w)
           end; lia.
Qed.

Lemma is_valid_url_inv url :
  _is_valid_url url = true →
  ∃ sch r result,
    remove_unsafe_bytes (Py.lstrip _WHATWG_C0_CONTROL_OR_SPACE url) = sch ++ 58%N :: r
    ∧ urlparse url = Ret result
    ∧ map Py.lower_ascii_char sch ∈ [lit "http"; lit "https"]
    ∧ (split_netloc r).1.1 ≠ [].
Proof.
  unfold _is_valid_url. destruct (urlparse url) as [result|e] eqn:Hparse; [|discriminate].
  rewrite andb_true_iff. intros [Hscheme Hnetloc].
  apply bool_decide_eq_true_1 in Hscheme.
  destruct (urlparse_components url result Hparse) as [Hs Hn]. cbv zeta in Hs, Hn.
  destruct (split_scheme _) as [s r] eqn:Hsplit. cbn [fst snd] in Hs, Hn.
  destruct (split_scheme_inv _ s r Hsplit) as (sch & Hu & Hlower).
  { rewrite <- Hs. intros E. rewrite E in Hscheme.
    rewrite !elem_of_cons, elem_of_nil in Hscheme.
    destruct Hscheme as [H|[H|[]]]; discriminate. }
  exists sch, r, result. split; [exact Hu|]. split; [reflexivity|].
  split; [now rewrite <- Hlower, <- Hs|].
  rewrite <- Hn. intros E. now rewrite E in Hnetloc.
Qed.

(** X20. Whatever [_is_valid_url] accepts reads, once [urlsplit] has
    stripped the leading control characters and spaces and deleted tabs,
    carriage returns and line feeds, as [http] or [https] in some mix of
    cases, then [://], then a host that begins with a character other than
    [/], [?] and [#]. *)
Theorem is_valid_url_shape url :
  _is_valid_url url = true →
  ∃ sch c rest,
    remove_unsafe_bytes (Py.lstrip _WHATWG_C0_CONTROL_OR_SPACE url)
    = sch ++ lit "://" ++ c :: rest
    ∧ map Py.lower_ascii_char sch ∈ [lit "http"; lit "https"]
    ∧ char_in c (lit "/?#") = false.
Proof.
  intros Hvalid.
  destruct (is_valid_url_inv url Hvalid) as (sch & r & result & Hu & _ & Hsch & Hnet).
  destruct (split_netloc_inv r Hnet) as (c & rest & -> & Hc).
  exists sch, c, rest. split; [exact Hu|]. split; [exact Hsch | exact Hc].
Qed.

(** X21. A URL without a colon is not accepted, and the handler answers it
    with the invalid-URL message alone, visible to the requester only: it
    defers nothing, creates no workspace and never calls the resolver. *)
Theorem download_command_rejects_url_without_colon
    (resolver : str -> str -> M (option str)) (url : str) fs :
  58%N ∉ url →
  _is_valid_url url = false
  ∧ download_command_with resolver url fs
    = ((if discord_ok (SendMessage InvalidUrl true)
        then Ret tt else Raise DiscordException),
       fs, [Discord (SendMessage InvalidUrl true)]).
Proof.
  intros Hcolon.
  assert (Hinvalid : _is_valid_url url = false).
  { destruct (_is_valid_url url) eqn:Hvalid; [exfalso|reflexivity].
    destruct (is_valid_url_inv url Hvalid) as (sch & r & _ & Hu & _).
    apply Hcolon, lstrip_incl with _WHATWG_C0_CONTROL_OR_SPACE, remove_unsafe_bytes_incl.
    rewrite Hu. apply elem_of_app. right. left. }
  split; [exact Hinvalid|].
  unfold download_command_with. rewrite Hinvalid. cbn [negb]. unfold discord.
  now destruct (discord_ok _).
Qed.

End UrlShape.

(** The URL [HTTP://Example.com/a.mp4] after two spaces and with a line
    feed in its scheme. *)
Lemma is_valid_url_shape_of_an_untidy_url :
  let env := sample_env 100 (Raise RequestException) (Raise RequestException) in
  let url := [32; 32]%N ++ lit "HT" ++ [10%N] ++ lit "TP://Example.com/a.mp4" in
  _is_valid_url url = true
  ∧ ∃ sch c rest,
      remove_unsafe_bytes (Py.lstrip _WHATWG_C0_CONTROL_OR_SPACE url)
      = sch ++ lit "://" ++ c :: rest
      ∧ map Py.lower_ascii_char sch ∈ [lit "http"; lit "https"]
      ∧ char_in c (lit "/?#") = false.
Proof.
  intros env url.
  assert (Hvalid : _is_valid_url url = true) by vm_refl.
  split; [exact Hvalid|]. exact (is_valid_url_shape url Hvalid).
Defined.

(** The input [example.com/video.mp4], which names no scheme. *)
Lemma download_command_rejects_bare_host :
  let env := sample_env 100 (Raise RequestException) (Raise RequestException) in
  let url := lit "example.com/video.mp4" in
  _is_valid_url url = false
  ∧ download_command_with download_video url sample_fs
    = ((if discord_ok (SendMessage InvalidUrl true)
        then Ret tt else Raise DiscordException),
       sample_fs, [Discord (SendMessage InvalidUrl true)]).
Proof.
  intros env url.
  apply (download_command_rejects_url_without_colon download_video url sample_fs).
  compute_done.
Defined.

(** ** What [_has_video_extension] reads *)



Section UrlPath.

Context `{env : Env}.









End UrlPath.


(** ** The extension from the content type *)

Lemma contains_tail (s p : str) (a : N) :
  Py.contains s (a :: p) = true → Py.contains s p = true.
Proof.
  induction s as [|x s IH]; [cbn; now rewrite orb_false_r|].
  cbn [Py.contains Py.startswith]. rewrite !orb_true_iff, andb_true_iff.
  intros [[_ Hstart]|Hlater].
  - right. destruct s as [|y s]; cbn [Py.contains]; rewrite Hstart; reflexivity.
  - right. now apply IH.
Qed.

Section ContentTypeExtension.

Context `{env : Env}.

(** X23. In [download_direct] the test for [x-matroska] in the content type
    never decides the extension: a content type that holds [x-matroska]
    holds [matroska], so the extension is that of the URL if it has a video
    extension, else [.webm] if the content type holds [webm], else [.mkv] if
    it holds [matroska], else [.mp4]. *)
Theorem direct_ext_needs_one_matroska_test url content_type :
  (Py.contains content_type (lit "x-matroska") = true →
   Py.contains content_type (lit "matroska") = true)
  ∧ direct_ext url content_type
    = if _has_video_extension url then
        match urlparse url with
        | Ret result => Ret (os_path.splitext (path result)).2
        | Raise e => Raise e
        end
      else if Py.contains content_type (lit "webm") then Ret (lit ".webm")
      else if Py.contains content_type (lit "matroska") then Ret (lit ".mkv")
      else Ret (lit ".mp4").
Proof.
  assert (Hsub : Py.contains content_type (lit "x-matroska") = true →
                 Py.contains content_type (lit "matroska") = true).
  { change (lit "x-matroska") with (120%N :: 45%N :: lit "matroska").
    intros H. exact (contains_tail _ _ _ (contains_tail _ _ _ H)). }
  split; [exact Hsub|].
  unfold direct_ext.
  destruct (Py.contains content_type (lit "matroska")) eqn:Hm; [reflexivity|].
  destruct (Py.contains content_type (lit "x-matroska")); [|reflexivity].
  now specialize (Hsub eq_refl).
Qed.

End ContentTypeExtension.

(** The content type [video/x-matroska] of a URL without an extension. *)
Lemma direct_ext_of_x_matroska :
  let env := sample_env 100 (Raise RequestException) (Raise RequestException) in
  Py.contains (lit "video/x-matroska") (lit "matroska") = true
  ∧ direct_ext (lit "https://example.com/stream") (lit "video/x-matroska")
    = Ret (lit ".mkv").
Proof.
  intros env.
  destruct (direct_ext_needs_one_matroska_test
              (lit "https://example.com/stream") (lit "video/x-matroska"))
    as [Hsub Hext].
  split; [apply Hsub; vm_refl|].
  rewrite Hext. vm_refl.
Defined.
